(** * smstools-http-api: the modem / spool core of [api/__init__.py]

    A shallow embedding of the Flask application's core functions
    (Python 2): the AT-reply parsers, the serial channel, the reset
    governor, the health check, the spool writer and the views that
    take a send request or look up a sent message, followed by the
    properties established about them.

    Conventions of the embedding.
    - Python [str] values (byte strings) and the unicode phone numbers are
      Rocq [string]s; the unicode message text is a list of code points.
    - Python [int]s are [Z]; the [float]s of [time.time()] are rationals [Q]
      (finite floats, exact arithmetic), and a float read from text may
      also be an infinity or not-a-number.
    - Everything outside the process (the lock file, the serial device, the
      clock, the random names of [tempfile], the files) lives in a [world]
      that the functions thread through; the unknown behaviour of the
      outside is read from oracles in an [env].
    - Python exceptions are values of [exn]; a computation returns either a
      value or a raised exception, together with the new world. *)

From Stdlib Require Import ZArith QArith Lqa Lia String Ascii List.
From stdpp Require Import gmap strings list fin_maps.

Open Scope string_scope.
Open Scope Z_scope.

(** ** Byte strings *)

Module Str.

Definition is_digit (c : ascii) : bool :=
  let n := N_of_ascii c in ((48 <=? n) && (n <=? 57))%N.

Definition digit_val (c : ascii) : Z := Z.of_N (N_of_ascii c) - 48.

Fixpoint take (n : nat) (s : string) : string :=
  match n, s with
  | S m, String c s' => String c (take m s')
  | _, _ => ""
  end.

Fixpoint drop (n : nat) (s : string) : string :=
  match n, s with
  | S m, String _ s' => drop m s'
  | _, _ => s
  end.

Fixpoint all (p : ascii -> bool) (s : string) : bool :=
  match s with
  | "" => true
  | String c s' => p c && all p s'
  end.

(** The longest run of decimal digits at the start of [s], cut at [n]. *)
Fixpoint digit_run (n : nat) (s : string) : nat :=
  match n, s with
  | S m, String c s' => if is_digit c then S (digit_run m s') else O
  | _, _ => O
  end.

(** [s.startswith(p)] *)
Fixpoint startswith (p s : string) : bool :=
  match p, s with
  | "", _ => true
  | String a p', String b s' => Ascii.eqb a b && startswith p' s'
  | String _ _, "" => false
  end.

(** [int(s)] for a string of decimal digits. *)
Fixpoint int_acc (acc : Z) (s : string) : Z :=
  match s with
  | "" => acc
  | String c s' => int_acc (10 * acc + digit_val c) s'
  end.

Definition int (s : string) : Z := int_acc 0 s.

End Str.

(** ** Regular expressions

    The two patterns of the source use literals, the class [\d] and one
    capturing group around a bounded greedy repetition of [\d]; [regex]
    has exactly these atoms.  [re_match] is [pattern.match(s)]: the match
    is anchored at the start of [s], the repetition is greedy and
    backtracks, and the result holds the captured groups. *)

Inductive atom :=
| Lit (c : ascii)
| Digit
| Capture (lo hi : nat).

Definition regex := list atom.

Definition lits (s : string) : regex := map Lit (list_ascii_of_string s).

Fixpoint re_match (r : regex) (s : string) : option (list string) :=
  match r with
  | [] => Some []
  | Lit c :: r' =>
      match s with
      | String d s' => if Ascii.eqb c d then re_match r' s' else None
      | "" => None
      end
  | Digit :: r' =>
      match s with
      | String d s' => if Str.is_digit d then re_match r' s' else None
      | "" => None
      end
  | Capture lo hi :: r' =>
      (fix attempt (n : nat) : option (list string) :=
         let here :=
           if (lo <=? n)%nat
           then match re_match r' (Str.drop n s) with
                | Some gs => Some (Str.take n s :: gs)
                | None => None
                end
           else None in
         match here, n with
         | Some gs, _ => Some gs
         | None, S m => attempt m
         | None, O => None
         end) (Str.digit_run hi s)
  end.

(** [CSQ_REGEX = re.compile(r'\+CSQ: (\d{1,2}),')] *)
Definition CSQ_REGEX : regex := (lits "+CSQ: " ++ [Capture 1 2; Lit ","])%list.

(** [CREG_REGEX = re.compile(r'\+CREG: (\d),\d')] *)
Definition CREG_REGEX : regex :=
  (lits "+CREG: " ++ [Capture 1 1; Lit ","; Digit])%list.

(** [m.group(1)] *)
Definition group1 (gs : list string) : string := nth 0 gs "".

(** ** StatusParser

    [parse_csq] and [parse_creg]; the [app.logger.info] line of the
    no-match branch has no effect on the result and is left out.
    [int(g or d)] takes the default [d] when the group is the empty
    string. *)

Definition parse_csq (csq : string) : Z :=
  match re_match CSQ_REGEX csq with
  | None => 0
  | Some gs => match group1 gs with "" => 0 | g => Str.int g end
  end.

Definition parse_creg (creg : string) : Z :=
  match re_match CREG_REGEX creg with
  | None => -1
  | Some gs => match group1 gs with "" => -1 | g => Str.int g end
  end.

(** ** More string operations of the source *)

Module PyStr.

(** The characters [str.strip()] removes: space, tab, LF, VT, FF, CR. *)
Definition is_space (c : ascii) : bool :=
  let n := N_of_ascii c in ((n =? 32) || ((9 <=? n) && (n <=? 13)))%N.

Fixpoint lstrip (s : string) : string :=
  match s with
  | String c s' => if is_space c then lstrip s' else s
  | "" => ""
  end.

(** Strips the right end: a character is kept when something that is
    not white space follows it or it is not white space itself. *)
Fixpoint rstrip (s : string) : string :=
  match s with
  | String c s' =>
      match rstrip s' with
      | "" => if is_space c then "" else String c ""
      | r => String c r
      end
  | "" => ""
  end.

(** [s.strip()] *)
Definition strip (s : string) : string := rstrip (lstrip s).

(** [s.split(sep)[0]]: what stands before the first occurrence of a
    non-empty [sep], the whole of [s] when there is none. *)
Fixpoint before_first (sep s : string) : string :=
  match s with
  | "" => ""
  | String c s' =>
      if Str.startswith sep s then "" else String c (before_first sep s')
  end.

Fixpoint after_last_slash (cur s : string) : string :=
  match s with
  | "" => cur
  | String c s' =>
      if Ascii.eqb c "/" then after_last_slash "" s'
      else after_last_slash (cur ++ String c "") s'
  end.

(** [s.split('/')[-1]] *)
Definition last_component (s : string) : string := after_last_slash "" s.

Definition endswith_slash (s : string) : bool :=
  match last_component s, s with
  | "", String _ _ => true
  | _, _ => false
  end.

(** [os.path.join(dir, file)] on POSIX. *)
Definition path_join (dir file : string) : string :=
  if Str.startswith "/" file then file
  else if String.eqb dir "" || endswith_slash dir then dir ++ file
  else dir ++ "/" ++ file.

(** [unicode.isdigit()] on one character of the Latin-1 range: the
    decimal digits, and the superscripts U+00B2, U+00B3 and U+00B9,
    which carry the Unicode digit property. *)
Definition unicode_isdigit (c : ascii) : bool :=
  let n := N_of_ascii c in
  (Str.is_digit c || (n =? 178) || (n =? 179) || (n =? 185))%N.

(** [s.isdigit()]: at least one character and digits only. *)
Definition isdigit (s : string) : bool :=
  match s with
  | "" => false
  | _ => Str.all unicode_isdigit s
  end.

Definition is_ascii_char (c : ascii) : bool := (N_of_ascii c <? 128)%N.

End PyStr.

(** ** Unicode text and its two encodings *)

Definition text := list N.

(** [len(t)] *)
Definition len (t : text) : Z := Z.of_nat (length t).

Definition byte (n : N) : ascii := ascii_of_N (n mod 256).

Definition is_7bit (c : N) : bool := (c <? 128)%N.

(** [t.encode('us-ascii')]; [None] stands for [UnicodeEncodeError]. *)
Definition encode_us_ascii (t : text) : option string :=
  if forallb is_7bit t
  then Some (string_of_list_ascii (map byte t))
  else None.

(** One code point in UTF-16, big endian: two bytes inside the basic
    plane, a surrogate pair above it. *)
Definition utf_16_be_unit (c : N) : list ascii :=
  if (c <? 65536)%N then [byte (c / 256); byte c]
  else
    let c' := (c - 65536)%N in
    let hi := (55296 + c' / 1024)%N in
    let lo := (56320 + c' mod 1024)%N in
    [byte (hi / 256); byte hi; byte (lo / 256); byte lo].

(** [t.encode('utf-16-be')] *)
Definition encode_utf_16_be (t : text) : string :=
  string_of_list_ascii (flat_map utf_16_be_unit t).

Definition b2z (b : bool) : Z := if b then 1 else 0.

(** ** MessageEncoder: lines 186-195 of [write_sms]

    The block reads and updates the locals [parts_count] and [ucs_field]
    of [write_sms] and yields the bytes [msg].  [/] and [%] are the
    integer division and remainder of Python 2. *)

Definition encode_block (txt : text) (parts_count : Z) (ucs_field : bool)
  : string * Z * bool :=
  let msg_len := len txt in
  match encode_us_ascii txt with
  | Some msg =>
      (msg,
       if msg_len >? 160
       then msg_len / 153 + b2z (msg_len mod 153 >? 0)
       else parts_count,
       ucs_field)
  | None =>
      (encode_utf_16_be txt,
       if msg_len >? 70
       then msg_len / 67 + b2z (msg_len mod 67 >? 0)
       else parts_count,
       true)
  end.

(** ** Exceptions, the outside world and the monad *)

Inductive exn :=
| SerialException
| LockTimeout          (* filelock.Timeout *)
| IOError
| OSError
| ValueError
| TypeError
| KeyError
| UnicodeEncodeError.

Definition exn_eqb (a b : exn) : bool :=
  match a, b with
  | SerialException, SerialException | LockTimeout, LockTimeout
  | IOError, IOError | OSError, OSError | ValueError, ValueError
  | TypeError, TypeError | KeyError, KeyError
  | UnicodeEncodeError, UnicodeEncodeError => true
  | _, _ => false
  end.

Inductive outcome (A : Type) :=
| Ok (a : A)
| Raise (e : exn).
Arguments Ok {A} a.
Arguments Raise {A} e.

(** The files of the world are those the process can open for reading
    and writing; a path that is a directory, or a file it has no right
    to, is not among them. *)
Record file := File { content : string; mode : Z }.

(** What a run leaves behind for an observer, in order. *)
Inductive event :=
| Log (level message : string)
| Popen (command : string)
| Created (path : string)
| Wrote (path data : string)
| Renamed (src dst : string)
| Chmod (path : string) (bits : Z)
| ResetModemCalled.

(** A Python [float]: a finite number, taken as a rational, one of the
    two infinities or not-a-number. *)
Inductive pyfloat :=
| Finite (q : Q)
| PlusInf
| MinusInf
| NaN.

(** One session with the serial device: whether [serial.Serial(...)] or
    [device.write] raise [SerialException], and what the successive
    [device.readline()] calls give ([None]: the call raises
    [SerialException]; past the end of the list the read times out and
    returns the empty string). *)
Record session := Session {
  open_fails : bool;
  write_fails : bool;
  replies : list (option string)
}.

(** Configuration, identity of the caller, the two Python built-ins that
    convert between floats and text, and the oracles of the outside.
    [may_create] says whether a path that is not among the files the
    process can open may be created by it (it may not when the
    directory refuses it, when the path is a directory or a file that
    the process has no right to); [executable] whether a command is
    there and may be run. *)
Record env := Env {
  OUTGOING : string;
  PREFIX : string;
  MOBILE_PERMS : option (gmap string (list string));
  MODEM_MINIMUM_RESET_INTERVAL : option Q;
  username : string;
  umask : Z;
  py_float : string -> option pyfloat; (* float(s); None is ValueError *)
  py_str : Q -> string;              (* str(x) *)
  lock_free : nat -> bool;           (* does the n-th acquire get the lock *)
  serial_dev : nat -> session;       (* the n-th serial session *)
  time_at : nat -> Q;                (* the n-th reading of the clock *)
  rand_name : nat -> string;         (* the n-th random name of tempfile *)
  may_create : string -> bool;       (* can open(path, 'w') make the file *)
  executable : string -> bool        (* can the command be started *)
}.

Record world := World {
  files : gmap string file;
  acquires : nat;
  opens : nat;
  ticks : nat;
  draws : nat;
  trace : list event
}.

Definition set_files (f : gmap string file) (w : world) : world :=
  World f (acquires w) (opens w) (ticks w) (draws w) (trace w).
Definition tick_acquires (w : world) : world :=
  World (files w) (S (acquires w)) (opens w) (ticks w) (draws w) (trace w).
Definition tick_opens (w : world) : world :=
  World (files w) (acquires w) (S (opens w)) (ticks w) (draws w) (trace w).
Definition tick_ticks (w : world) : world :=
  World (files w) (acquires w) (opens w) (S (ticks w)) (draws w) (trace w).
Definition tick_draws (w : world) : world :=
  World (files w) (acquires w) (opens w) (ticks w) (S (draws w)) (trace w).
Definition emit (e : event) (w : world) : world :=
  World (files w) (acquires w) (opens w) (ticks w) (draws w) (trace w ++ [e]).

Definition M (A : Type) : Type := world -> outcome A * world.

Definition ret {A} (a : A) : M A := fun w => (Ok a, w).

Definition bind {A B} (m : M A) (k : A -> M B) : M B :=
  fun w =>
    match m w with
    | (Ok a, w') => k a w'
    | (Raise e, w') => (Raise e, w')
    end.

Definition raise {A} (e : exn) : M A := fun w => (Raise e, w).

(** [try: body except e: handler] *)
Definition try_except {A} (body : M A) (e : exn) (handler : M A) : M A :=
  fun w =>
    match body w with
    | (Raise e', w') => if exn_eqb e e' then handler w' else (Raise e', w')
    | r => r
    end.

Definition modify (f : world -> world) : M unit := fun w => (Ok tt, f w).

Definition log (level message : string) : M unit := modify (emit (Log level message)).

Declare Scope py_scope.
Delimit Scope py_scope with py.
Notation "x <- m ;; k" := (bind m (fun x => k))
  (at level 100, m at next level, right associativity) : py_scope.
Notation "m ;;; k" := (bind m (fun _ => k))
  (at level 100, right associativity) : py_scope.
Open Scope py_scope.

(** ** Files

    A file object is a path and a position; its bytes live in the world.
    Writes reach the file at once (no other process is modelled).  A
    path that is not among the files of the world is a file that is
    missing or one that the process cannot open (no permission, a
    directory): opening it raises [IOError], unless the mode is ['w']
    and the process may create it. *)

Record handle := Handle { h_path : string; h_pos : nat }.

Definition new_mode (E : env) : Z := Z.land 438 (Z.lnot (umask E)).

(** [open(path, 'r+')]: the file must be there and open to the
    process. *)
Definition open_rplus (path : string) : M handle :=
  fun w =>
    match files w !! path with
    | Some _ => (Ok (Handle path 0), w)
    | None => (Raise IOError, w)
    end.

(** [open(path, 'w')]: empties the file, or creates it when the process
    may; raises [IOError] otherwise. *)
Definition open_w (E : env) (path : string) : M handle :=
  fun w =>
    match files w !! path with
    | Some f =>
        (Ok (Handle path 0), set_files (<[path := File "" (mode f)]> (files w)) w)
    | None =>
        if may_create E path
        then (Ok (Handle path 0),
              set_files (<[path := File "" (new_mode E)]> (files w)) w)
        else (Raise IOError, w)
    end.

(** [f.read()]: the rest of the file; the position moves to the end. *)
Definition f_read (h : handle) : M (string * handle) :=
  fun w =>
    match files w !! h_path h with
    | Some f =>
        (Ok (Str.drop (h_pos h) (content f),
             Handle (h_path h) (String.length (content f))), w)
    | None => (Raise IOError, w)
    end.

(** [f.seek(n)] *)
Definition f_seek (h : handle) (n : nat) : handle := Handle (h_path h) n.

(** [f.write(data)]: overwrites from the position on. *)
Definition f_write (h : handle) (data : string) : M handle :=
  fun w =>
    match files w !! h_path h with
    | Some f =>
        let c := Str.take (h_pos h) (content f) ++ data
                 ++ Str.drop (h_pos h + String.length data) (content f) in
        (Ok (Handle (h_path h) (h_pos h + String.length data)),
         emit (Wrote (h_path h) data)
           (set_files (<[h_path h := File c (mode f)]> (files w)) w))
    | None => (Raise IOError, w)
    end.

(** [f.write(u)] for a unicode [u]: Python 2 first encodes it with the
    ASCII codec. *)
Definition f_write_unicode (h : handle) (u : string) : M handle :=
  if Str.all PyStr.is_ascii_char u then f_write h u
  else raise UnicodeEncodeError.

(** [f.truncate()]: cuts the file at the position. *)
Definition f_truncate (h : handle) : M unit :=
  fun w =>
    match files w !! h_path h with
    | Some f =>
        (Ok tt,
         set_files (<[h_path h := File (Str.take (h_pos h) (content f)) (mode f)]>
                      (files w)) w)
    | None => (Raise IOError, w)
    end.

(** [os.rename(src, dst)] *)
Definition os_rename (src dst : string) : M unit :=
  fun w =>
    match files w !! src with
    | Some f =>
        if String.eqb dst "" || PyStr.endswith_slash dst then (Raise OSError, w)
        else (Ok tt,
              emit (Renamed src dst)
                (set_files (<[dst := f]> (delete src (files w))) w))
    | None => (Raise OSError, w)
    end.

(** [os.chmod(path, bits)] *)
Definition os_chmod (path : string) (bits : Z) : M unit :=
  fun w =>
    match files w !! path with
    | Some f =>
        (Ok tt,
         emit (Chmod path bits)
           (set_files (<[path := File (content f) bits]> (files w)) w))
    | None => (Raise OSError, w)
    end.

(** [tempfile.TMP_MAX] *)
Definition TMP_MAX : nat := Z.to_nat 10000.

(** [tempfile.mkstemp]: draws random names until one is free, creates
    that file empty with mode 0600 and returns its path; gives up with
    [IOError] after [TMP_MAX] draws.  [dir] is taken to be absolute,
    and to be a directory in which the process may create files. *)
Fixpoint mkstemp_inner (E : env) (fuel : nat) (dir pre suf : string) : M string :=
  fun w =>
    match fuel with
    | O => (Raise IOError, w)
    | S fuel' =>
        let name := rand_name E (draws w) in
        let w1 := tick_draws w in
        let path := PyStr.path_join dir (pre ++ name ++ suf) in
        match files w1 !! path with
        | Some _ => mkstemp_inner E fuel' dir pre suf w1
        | None =>
            (Ok path,
             emit (Created path) (set_files (<[path := File "" 384]> (files w1)) w1))
        end
    end.

Definition mkstemp (E : env) (dir pre suf : string) : M string :=
  mkstemp_inner E TMP_MAX dir pre suf.

(** ** The clock, the lock and the serial device *)

(** [time.time()] *)
Definition time_time (E : env) : M Q :=
  fun w => (Ok (time_at E (ticks w)), tick_ticks w).

(** [SLOCK.acquire(timeout=20)]; the lock is released when the [with]
    block is left, which leaves no mark on the world. *)
Definition acquire (E : env) : M unit :=
  fun w =>
    if lock_free E (acquires w) then (Ok tt, tick_acquires w)
    else (Raise LockTimeout, tick_acquires w).

(** [serial.Serial(SERIAL_DEVICE_PATH, timeout=1)]: the device object is
    the list of what its reads will give. *)
Definition serial_open (E : env) : M session :=
  fun w =>
    let s := serial_dev E (opens w) in
    if open_fails s then (Raise SerialException, tick_opens w)
    else (Ok s, tick_opens w).

(** [device.write(cmd)] *)
Definition dev_write (d : session) (cmd : string) : M unit :=
  if write_fails d then raise SerialException else ret tt.

(** [device.readline()] *)
Definition dev_readline (d : session) : M (string * session) :=
  match replies d with
  | [] => ret ("", d)
  | Some line :: rest => ret (line, Session (open_fails d) (write_fails d) rest)
  | None :: rest => raise SerialException
  end.

(** ** ModemChannel: [get_creg] and [get_csq]

    The first component of the result is a byte string or the sentinel
    ([None], resp. the integer 0); the second is the stripped status line
    or [False]. *)

Inductive pyreply :=
| RStr (s : string)
| RInt (z : Z)
| RNone.

Inductive pyok :=
| OkStr (s : string)
| OkFalse.

(** Truth value of the second component: [False] and the empty string
    are false. *)
Definition truthy (o : pyok) : bool :=
  match o with
  | OkStr "" => false
  | OkStr _ => true
  | OkFalse => false
  end.

Definition query (E : env) (cmd : string) : M (pyreply * pyok) :=
  device <- serial_open E ;;
  dev_write device cmd ;;;
  r1 <- dev_readline device ;;
  r2 <- (if Str.startswith "AT" (fst r1)
         then dev_readline (snd r1)
         else ret r1) ;;
  r3 <- dev_readline (snd r2) ;;
  ret (RStr (fst r2), OkStr (PyStr.strip (fst r3))).

Definition CRLF : string := String (ascii_of_N 13) (String (ascii_of_N 10) "").

Definition get_creg (E : env) : M (pyreply * pyok) :=
  try_except
    (acquire E ;;;
     try_except (query E ("AT+CREG?" ++ CRLF))
       SerialException
       (log "warning" "unable to read from serial device: %s" ;;;
        ret (RNone, OkFalse)))
    LockTimeout
    (log "warning" "couldn't obtain lock for serial device: %s" ;;;
     ret (RNone, OkFalse)).

Definition get_csq (E : env) : M (pyreply * pyok) :=
  try_except
    (acquire E ;;;
     try_except (query E ("AT+CSQ" ++ CRLF))
       SerialException
       (log "warning" "unable to read from serial device: %s" ;;;
        ret (RInt 0, OkFalse)))
    LockTimeout
    (log "warning" "couldn't obtain lock for serial device: %s" ;;;
     ret (RInt 0, OkFalse)).

(** ** ResetGovernor *)

Definition MODEM_RESET_TIMESTAMP_PATH : string := "../modem_last_reset".
Definition RESET_MODEM : string := "/opt/httpapi/reset_modem.sh".

Definition get_modem_reset_file (E : env) : M (handle * bool) :=
  try_except
    (reset_file <- open_rplus MODEM_RESET_TIMESTAMP_PATH ;;
     ret (reset_file, false))
    IOError
    (reset_file <- open_w E MODEM_RESET_TIMESTAMP_PATH ;;
     ret (reset_file, true)).

(** [subprocess.Popen((RESET_MODEM,))]: the script is started and not
    waited for; [OSError] when it is not there or may not be run. *)
Definition popen (E : env) (command : string) : M unit :=
  fun w =>
    if executable E command then (Ok tt, emit (Popen command) w)
    else (Raise OSError, w).

(** Only [filelock.Timeout] is caught: an [OSError] of [Popen] leaves
    the function. *)
Definition perform_reset (E : env) : M unit :=
  log "info" "resetting modem..." ;;;
  try_except
    (acquire E ;;; popen E RESET_MODEM)
    LockTimeout
    (log "warning" "perform_reset: unable to obtain lock for serial device").

(** What [float(s)] reads: nothing from the empty string, and what the
    oracle says from any other. *)
Definition read_float (E : env) (s : string) : option pyfloat :=
  if String.eqb s "" then None else py_float E s.

(** [float(s)] *)
Definition float (E : env) (s : string) : M pyfloat :=
  match read_float E s with
  | Some x => ret x
  | None => raise ValueError
  end.

(** [a > b] on finite floats. *)
Definition Qgtb (a b : Q) : bool := negb (Qle_bool a b).

(** [a - b] on floats. *)
Definition float_sub (a b : pyfloat) : pyfloat :=
  match a, b with
  | NaN, _ | _, NaN => NaN
  | Finite x, Finite y => Finite (x - y)
  | Finite _, PlusInf => MinusInf
  | Finite _, MinusInf => PlusInf
  | PlusInf, PlusInf => NaN
  | PlusInf, _ => PlusInf
  | MinusInf, MinusInf => NaN
  | MinusInf, _ => MinusInf
  end.

(** [a > b] on floats: false as soon as one side is not a number. *)
Definition float_gt (a b : pyfloat) : bool :=
  match a, b with
  | NaN, _ | _, NaN => false
  | Finite x, Finite y => Qgtb x y
  | PlusInf, PlusInf => false
  | PlusInf, _ => true
  | _, PlusInf => false
  | MinusInf, _ => false
  | Finite _, MinusInf => true
  end.

(** [app.config.get('MODEM_MINIMUM_RESET_INTERVAL', 300)] *)
Definition minimum_reset_interval (E : env) : Q :=
  match MODEM_MINIMUM_RESET_INTERVAL E with
  | Some x => x
  | None => 300 # 1
  end.

(** The event [ResetModemCalled] marks the entry into the function; it is
    the one line of the embedding with no counterpart in the source.
    Leaving the [with] block closes the file and does nothing else,
    whether the block ends or raises. *)
Definition reset_modem (E : env) : M unit :=
  modify (emit ResetModemCalled) ;;;
  now <- time_time E ;;
  rc <- get_modem_reset_file E ;;
  let reset_file := fst rc in
  let created := snd rc in
  lh <- (if created then ret (Finite (0 # 1), reset_file)
         else
           rd <- f_read reset_file ;;
           last <- try_except (float E (PyStr.strip (fst rd))) ValueError
                     (ret (Finite (0 # 1))) ;;
           ret (last, snd rd)) ;;
  let last := fst lh in
  let reset_file := snd lh in
  (* the logging module swallows the error of [%d] on a float that is
     not finite *)
  log "info" "last modem reset: %d" ;;;
  if float_gt (float_sub (Finite now) last) (Finite (minimum_reset_interval E))
  then
    perform_reset E ;;;
    let reset_file := f_seek reset_file 0 in
    t <- time_time E ;;
    reset_file <- f_write reset_file (py_str E t) ;;
    f_truncate reset_file
  else ret tt.

(** ** HealthEvaluator: the view [modem_status]

    A view returns a pair of a JSON body and a status code, or nothing at
    all when control reaches the end of the function (Python's [None]). *)

Inductive pyval :=
| VStr (s : string)
| VText (t : text)
| VInt (z : Z)
| VDict (d : gmap string string).

Definition response : Type := gmap string pyval * Z.

(** [jsonify({'error': message})] *)
Definition error_body (message : string) : gmap string pyval :=
  {[ "error" := VStr message ]}.

(** [parse_csq] and [parse_creg] applied to whatever the channel gave:
    [re.match] raises [TypeError] on a value that is not a string. *)
Definition parse_reply (parse : string -> Z) (r : pyreply) : M Z :=
  match r with
  | RStr s => ret (parse s)
  | _ => raise TypeError
  end.

Definition modem_status (E : env) : M (option response) :=
  c <- get_csq E ;;
  let csq := fst c in
  let ok := snd c in
  if negb (truthy ok) then ret (Some (error_body "modem not available", 500))
  else
    csq_status <- parse_reply parse_csq csq ;;
    if negb ((10 <=? csq_status)%Z && (csq_status <? 99)%Z)
    then
      log "warning" "CSQ result: %s" ;;;
      (if (csq_status =? 99)%Z then reset_modem E else ret tt) ;;;
      ret (Some (error_body "modem not connected or weak signal", 500))
    else
      g <- get_creg E ;;
      let creg := fst g in
      let ok := snd g in
      if negb (truthy ok) then ret (Some (error_body "modem not available", 500))
      else
        creg_status <- parse_reply parse_creg creg ;;
        if negb ((creg_status =? 1)%Z || (creg_status =? 5)%Z)
        then ret (Some (error_body "registration problem", 500))
        else ret None.

(** [internal_error], the handler the application registers for the
    status 500. *)
Definition internal_error : response := (error_body "Internal error", 500).

(** What Flask, outside of debug mode, makes of a view: a returned pair
    is the response; a view that returns [None] makes Flask raise ("View
    function did not return a response"), and an exception that leaves
    a view is answered by the handler registered for 500. *)
Definition flask_dispatch (view : M (option response)) (w : world)
  : response * world :=
  match view w with
  | (Ok (Some r), w') => (r, w')
  | (Ok None, w') => (internal_error, w')
  | (Raise _, w') => (internal_error, w')
  end.

(** ** PermissionGate and validation *)

(** [access_mobile]: [True], or [None] when the caller has an allow-list
    that does not hold the number. *)
Definition access_mobile (E : env) (mobile : string) : option bool :=
  match MOBILE_PERMS E with
  | Some perms =>
      match perms !! username E with
      | Some allowed =>
          if existsb (String.eqb mobile) allowed then Some true else None
      | None => Some true
      end
  | None => Some true
  end.

Definition truthy_opt (o : option bool) : bool :=
  match o with
  | Some b => b
  | None => false
  end.

Definition validate_mobile (mobile : string) : bool :=
  if PyStr.isdigit mobile then true else false.

(** ** SpoolWriter: [write_sms] *)

Record sms := Sms { mobiles : list string; sms_text : text }.

(** The locals of [write_sms] that live across iterations of its loop. *)
Record locals := Locals {
  result : gmap string pyval;
  parts_count : Z;
  ucs_field : bool
}.

(** [result['message_id'][mobile] = value] *)
Definition set_message_id (mobile value : string) (result : gmap string pyval)
  : M (gmap string pyval) :=
  match result !! "message_id" with
  | Some (VDict d) => ret (<["message_id" := VDict (<[mobile := value]> d)]> result)
  | Some _ => raise TypeError
  | None => raise KeyError
  end.

Definition LF : string := String (ascii_of_N 10) "".

(** Lines 184-207: one permitted destination is encoded and spooled. *)
Definition spool (E : env) (txt : text) (mobile : string) (l : locals) : M locals :=
  msg_file_lock <- mkstemp E (OUTGOING E) (PREFIX E) ".LOCK" ;;
  let msg_file := PyStr.before_first ".LOCK" msg_file_lock in
  let enc := encode_block txt (parts_count l) (ucs_field l) in
  let msg := fst (fst enc) in
  let parts_count := snd (fst enc) in
  let ucs_field := snd enc in
  f <- open_w E msg_file_lock ;;
  f <- f_write f ("From: " ++ username E ++ LF) ;;
  f <- (if ucs_field then f_write f ("Alphabet: UCS" ++ LF) else ret f) ;;
  f <- f_write_unicode f ("To: " ++ mobile ++ LF ++ LF) ;;
  f <- f_write f msg ;;
  os_rename msg_file_lock msg_file ;;;
  os_chmod msg_file 438 ;;;
  log "info" "Message from %s to %s placed to the spooler %s" ;;;
  let message_id := PyStr.last_component msg_file in
  result <- set_message_id mobile message_id (result l) ;;
  ret (Locals result parts_count ucs_field).

(** The body of the loop over [sms['mobiles']]. *)
Definition write_sms_step (E : env) (txt : text) (mobile : string) (l : locals)
  : M locals :=
  if negb (validate_mobile mobile)
  then
    log "info" "Mobile phone %s is not valid [%s]" ;;;
    ret (Locals (<[mobile := VStr "Not valid"]> (result l)) (parts_count l) (ucs_field l))
  else if truthy_opt (access_mobile E mobile)
  then spool E txt mobile l
  else
    log "info" "Forbidden to send message from %s to %s" ;;;
    result <- set_message_id mobile "Forbidden" (result l) ;;
    ret (Locals result (parts_count l) (ucs_field l)).

Fixpoint write_sms_loop (E : env) (txt : text) (ms : list string) (l : locals)
  : M locals :=
  match ms with
  | [] => ret l
  | mobile :: ms' =>
      l' <- write_sms_step E txt mobile l ;;
      write_sms_loop E txt ms' l'
  end.

Definition write_sms (E : env) (s : sms) : M (gmap string pyval) :=
  let l0 := Locals {[ "message_id" := VDict ∅ ]} 1 false in
  l <- write_sms_loop E (sms_text s) (mobiles s) l0 ;;
  let result := <["sent_text" := VText (sms_text s)]> (result l) in
  let result := <["parts_count" := VInt (parts_count l)]> result in
  ret result.

(** The views [create_sms] and [simple_send_sms], past the checks on the
    shape of the request: [return jsonify(result), 201]. *)
Definition send_view (E : env) (s : sms) : M response :=
  result <- write_sms E s ;;
  ret (result, 201).

(** ** A runtime for examples

    A clock that ticks in whole seconds, a [str] that writes such
    readings the way Python does and a [float] that reads plain decimal
    numerals; the reset script is there and every file may be
    created. *)

Module Example.

Fixpoint digits_of (fuel : nat) (n : N) (acc : string) : string :=
  match fuel with
  | O => acc
  | S k =>
      let acc' := String (ascii_of_N (48 + n mod 10)) acc in
      if (n / 10 =? 0)%N then acc' else digits_of k (n / 10)%N acc'
  end.

(** [str(x)] for a whole [x] with [0 <= x < 10^12], which is what the
    clock of the examples reads: the digits, followed by [.0]. *)
Definition str (x : Q) : string :=
  let n := Z.to_N (Qnum x / Z.pos (Qden x)) in
  digits_of (S (N.to_nat (N.log2 n))) n "" ++ ".0".

(** What stands before the first dot, and what stands after it. *)
Fixpoint split_dot (s : string) : string * option string :=
  match s with
  | "" => ("", None)
  | String c s' =>
      if Ascii.eqb c "." then ("", Some s')
      else (String c (fst (split_dot s')), snd (split_dot s'))
  end.

(** [float(s)] for [nan], [inf], [-inf] and for an unsigned decimal
    numeral with an optional fraction ([12], [12.5], [12.], [.5]);
    Python reads more forms (signs, exponents), which the examples do
    not use. *)
Definition float (s : string) : option pyfloat :=
  if String.eqb s "nan" then Some NaN
  else if String.eqb s "inf" then Some PlusInf
  else if String.eqb s "-inf" then Some MinusInf
  else
    let whole := fst (split_dot s) in
    let frac := match snd (split_dot s) with
                | Some f => f
                | None => ""
                end in
    if Str.all Str.is_digit whole && Str.all Str.is_digit frac
       && negb (String.eqb (whole ++ frac) "")
    then Some (Finite (Qred (Str.int (whole ++ frac)
                             # Z.to_pos (10 ^ Z.of_nat (String.length frac)))))
    else None.

Definition no_session : session := Session true false [].

(** A healthy modem: echo, reply, status line. *)
Definition csq_session (value : string) : session :=
  Session false false
    [Some ("AT+CSQ" ++ CRLF); Some ("+CSQ: " ++ value ++ ",0" ++ CRLF);
     Some ("OK" ++ CRLF)].

Definition creg_session (value : string) : session :=
  Session false false
    [Some ("+CREG: " ++ value ++ ",1" ++ CRLF); Some ("OK" ++ CRLF)].

Definition names (n : nat) : string :=
  match n with
  | O => "aaaaaa"
  | 1%nat => "bbbbbb"
  | _ => "cccccc"
  end.

(** [creatable]: may files be created; [startable]: can the reset
    script be started. *)
Definition env_with (sessions : nat -> session) (locks : nat -> bool)
  (clock : nat -> Q) (creatable startable : bool) : env :=
  Env "/var/spool/sms/outgoing" "sms" None None "alice" 18
      float str locks sessions clock names
      (fun _ => creatable) (fun _ => startable).

Definition env_of (sessions : nat -> session) (locks : nat -> bool)
  (clock : nat -> Q) : env :=
  env_with sessions locks clock true true.

Definition world_of (fs : gmap string file) : world := World fs 0 0 0 0 [].

End Example.

(** ** The views that take a send request

    A decoded JSON body.  Strings carry one code point of the Latin-1
    range per character, numbers are integers, and an object is the list
    of its members in the order in which Python iterates over the
    [dict]. *)

#[local] Unset Elimination Schemes.

Inductive json :=
| JNull
| JBool (b : bool)
| JNum (z : Z)
| JStr (s : string)
| JList (items : list json)
| JObj (members : list (string * json)).

#[local] Set Elimination Schemes.

(** [not j]: [None], [False], zero and the empty string, list and dict
    are false. *)
Definition json_truthy (j : json) : bool :=
  match j with
  | JNull => false
  | JBool b => b
  | JNum z => negb (z =? 0)
  | JStr s => negb (String.eqb s "")
  | JList items => match items with [] => false | _ => true end
  | JObj members => match members with [] => false | _ => true end
  end.

(** [d[key]] *)
Fixpoint member (key : string) (members : list (string * json)) : option json :=
  match members with
  | [] => None
  | (k, v) :: rest => if String.eqb k key then Some v else member key rest
  end.

Fixpoint chars (s : string) : list string :=
  match s with
  | "" => []
  | String c s' => String c "" :: chars s'
  end.

(** [for x in j]: the items of a list, the characters of a string, the
    keys of a dict; anything else is not iterable. *)
Definition iterate (j : json) : option (list json) :=
  match j with
  | JList items => Some items
  | JStr s => Some (map JStr (chars s))
  | JObj members => Some (map (fun kv => JStr (fst kv)) members)
  | _ => None
  end.

(** [type(j) == unicode] *)
Definition is_unicode (j : json) : bool :=
  match j with
  | JStr _ => true
  | _ => false
  end.

Definition unicode_of (j : json) : string :=
  match j with
  | JStr s => s
  | _ => ""
  end.

(** The code points of a string. *)
Definition text_of (s : string) : text := map N_of_ascii (list_ascii_of_string s).

(** [bad_request(message)] *)
Definition bad_request (message : string) : response := (error_body message, 400).

(** [create_sms]; [body] is [request.json], [None] when the request
    carries no JSON. *)
Definition create_sms (E : env) (body : option json) : M response :=
  match body with
  | None => ret (bad_request "Request error")
  | Some j =>
      if negb (json_truthy j) then ret (bad_request "Request error")
      else
        match j with
        | JObj members =>
            match member "mobiles" members with
            | None => ret (bad_request "Request error")
            | Some ms =>
                match member "text" members with
                | Some (JStr t) =>
                    match iterate ms with
                    | None => raise TypeError
                    | Some items =>
                        if forallb is_unicode items
                        then send_view E (Sms (map unicode_of items) (text_of t))
                        else ret (bad_request "Request error")
                    end
                | _ => ret (bad_request "Request error")
                end
            end
        | _ => ret (bad_request "Request error")
        end
  end.

(** [request.args.getlist(key)] *)
Fixpoint getlist (key : string) (args : list (string * string)) : list string :=
  match args with
  | [] => []
  | (k, v) :: rest =>
      if String.eqb k key then v :: getlist key rest else getlist key rest
  end.

(** [key in request.args] *)
Definition has_key (key : string) (args : list (string * string)) : bool :=
  existsb (fun kv => String.eqb (fst kv) key) args.

(** [request.args[key]]: the first value given for [key]. *)
Definition first_value (key : string) (args : list (string * string)) : string :=
  match getlist key args with
  | v :: _ => v
  | [] => ""
  end.

(** [simple_send_sms]; [args] are the parameters of the query string in
    their order.  The two log lines carry the destinations and the
    request; the trace keeps their level and a fixed text. *)
Definition simple_send_sms (E : env) (args : list (string * string)) : M response :=
  match args with
  | [] => ret (bad_request "missing required params")
  | _ =>
      if negb (has_key "to" args) then ret (bad_request "missing required params")
      else if negb (has_key "text" args) then ret (bad_request "missing required params")
      else
        log "debug" "to: {}" ;;;
        log "info" "%s" ;;;
        send_view E (Sms (getlist "to" args) (text_of (first_value "text" args)))
  end.

(** Does the loop body of [write_sms] spool a message for [mobile]. *)
Definition spooled (E : env) (mobile : string) : bool :=
  validate_mobile mobile && truthy_opt (access_mobile E mobile).

(** ** Looking up a sent message: [get_sms] *)

(** [open(path)]: the file must exist. *)
Definition open_r (path : string) : M handle :=
  fun w =>
    match files w !! path with
    | Some _ => (Ok (Handle path 0), w)
    | None => (Raise IOError, w)
    end.

(** [for line in f]: the lines of the file, each with its line feed;
    the last one has none when the file does not end in one. *)
Fixpoint readlines (s : string) : list string :=
  match s with
  | "" => []
  | String c s' =>
      if Ascii.eqb c (ascii_of_N 10) then String c "" :: readlines s'
      else
        match readlines s' with
        | [] => [String c ""]
        | line :: rest => String c line :: rest
        end
  end.

(** [except EnvironmentError]: the base class of [IOError] and
    [OSError]. *)
Definition is_environment_error (e : exn) : bool :=
  match e with
  | IOError | OSError => true
  | _ => false
  end.

Definition try_except_environment {A} (body handler : M A) : M A :=
  fun w =>
    match body w with
    | (Raise e, w') => if is_environment_error e then handler w' else (Raise e, w')
    | r => r
    end.

(** [jsonify({'error': 'Not found'}), 404] *)
Definition not_found : response := (error_body "Not found", 404).

(** The keys of [msg_fields]. *)
Definition MSG_FIELDS : list string := ["From"; "To"; "Sent"; "message_id"].

(** [line.split(s_field)[1].rstrip()] for a line that starts with
    [s_field]: what stands between the marker and its next occurrence,
    without the white space at its end. *)
Definition field_value (s_field line : string) : string :=
  PyStr.rstrip (PyStr.before_first s_field (Str.drop (String.length s_field) line)).

(** The loop [for field in msg_fields] over one line; [order] is the
    order in which Python walks through the keys of the dict.  The
    [break] leaves this loop only. *)
Fixpoint scan_fields (order : list string) (line : string)
  (msg_fields : gmap string (option string)) : gmap string (option string) :=
  match order with
  | [] => msg_fields
  | field :: rest =>
      let s_field := field ++ ": " in
      let msg_fields :=
        if Str.startswith s_field line
        then <[field := Some (field_value s_field line)]> msg_fields
        else msg_fields in
      if Str.startswith LF line then msg_fields
      else scan_fields rest line msg_fields
  end.

(** The loop [for line in f]. *)
Definition read_fields (order : list string) (lines : list string)
  (msg_fields : gmap string (option string)) : gmap string (option string) :=
  fold_left (fun d line => scan_fields order line d) lines msg_fields.

(** [get_sms(message_id)].  [SENT] is [app.config['SENT']], [None] when
    the configuration has no such key; the answer is the dict given to
    [jsonify] (status 200) or the answer of [not_found]. *)
Definition get_sms (SENT : option string) (order : list string) (message_id : string)
  : M (gmap string (option string) + response) :=
  match SENT with
  | None => raise KeyError
  | Some sent =>
      let sent_dir := sent ++ "/" in
      let msg_fields : gmap string (option string) :=
        <["From" := None]> (<["To" := None]> (<["Sent" := None]>
          (<["message_id" := Some message_id]> ∅))) in
      try_except_environment
        (f <- open_r (sent_dir ++ message_id) ;;
         rd <- f_read f ;;
         ret (inl (read_fields order (readlines (fst rd)) msg_fields)))
        (ret (inr not_found))
  end.


(** ** Notions used to state the properties *)

(** The two alphabets of an encoded payload, read off [ucs_field]. *)
Inductive alphabet := DEFAULT | UCS2.

Definition chosen_alphabet (ucs_field : bool) : alphabet :=
  if ucs_field then UCS2 else DEFAULT.

(** The integer ceiling of [n / d]; [ceiling_exact] below shows that it
    is the least [k] with [n <= d * k]. *)
Definition ceiling (n d : Z) : Z := (n + d - 1) / d.

(** A text of [n] times the letter [a]. *)
Definition letters (n : nat) : text := repeat 97%N n.

(** The exchange with the modem as [get_csq] and [get_creg] attempt it,
    without their exception handlers. *)
Definition exchange (E : env) (cmd : string) : M (pyreply * pyok) :=
  acquire E ;;; query E cmd.

(** The persisted timestamp as a reader sees it: 0 when the state file
    is missing or does not hold what [float] reads. *)
Definition last_reset (E : env) (w : world) : pyfloat :=
  match files w !! MODEM_RESET_TIMESTAMP_PATH with
  | Some f =>
      match read_float E (PyStr.strip (content f)) with
      | Some x => x
      | None => Finite (0 # 1)
      end
  | None => Finite (0 # 1)
  end.

(** The state file can be opened in [w]: it is among the files of the
    process, or the process may create it. *)
Definition state_file_opens (E : env) (w : world) : bool :=
  match files w !! MODEM_RESET_TIMESTAMP_PATH with
  | Some _ => true
  | None => may_create E MODEM_RESET_TIMESTAMP_PATH
  end.

(** The next reading of the clock is more than the minimum interval
    after the persisted timestamp. *)
Definition elapsed_exceeds (E : env) (w : world) : bool :=
  float_gt (float_sub (Finite (time_at E (ticks w))) (last_reset E w))
    (Finite (minimum_reset_interval E)).

(** A reset is due in [w]: [reset_modem] gets to the comparison, and the
    comparison holds. *)
Definition reset_due (E : env) (w : world) : bool :=
  state_file_opens E w && elapsed_exceeds E w.

(** [reset_modem] returns in [w]: the state file opens, and the reset
    script is not asked for in vain. *)
Definition reset_returns (E : env) (w : world) : bool :=
  state_file_opens E w &&
  negb (elapsed_exceeds E w && lock_free E (acquires w)
        && negb (executable E RESET_MODEM)).

(** Writing the time [t] as text loses no more than the minimum
    interval: [float] reads the text of [t] back as a finite value that
    is at most the interval below [t]. *)
Definition stamp_reads_back (E : env) (t : Q) : Prop :=
  exists v, read_float E (PyStr.strip (py_str E t)) = Some (Finite v) /\
            (t - v <= minimum_reset_interval E)%Q.

(** The files after the state file has been opened: a missing state
    file has come into being, empty. *)
Definition state_file_opened (E : env) (w : world) : gmap string file :=
  match files w !! MODEM_RESET_TIMESTAMP_PATH with
  | Some _ => files w
  | None => <[MODEM_RESET_TIMESTAMP_PATH := File "" (new_mode E)]> (files w)
  end.

Definition is_launch (e : event) : bool :=
  match e with
  | Popen cmd => String.eqb cmd RESET_MODEM
  | _ => false
  end.

Definition is_reset_call (e : event) : bool :=
  match e with
  | ResetModemCalled => true
  | _ => false
  end.

Definition is_log (message : string) (e : event) : bool :=
  match e with
  | Log _ m => String.eqb m message
  | _ => false
  end.

Definition count (p : event -> bool) (tr : list event) : nat :=
  length (List.filter p tr).

(** How often the trace shows a launch of the reset script, a call of
    [reset_modem], a call of [perform_reset]. *)
Definition launches (tr : list event) : nat := count is_launch tr.
Definition reset_calls (tr : list event) : nat := count is_reset_call tr.
Definition perform_calls (tr : list event) : nat :=
  count (is_log "resetting modem...") tr.

(** The mode the state file has after [reset_modem] opened it. *)
Definition stamp_mode (E : env) (w : world) : Z :=
  match files w !! MODEM_RESET_TIMESTAMP_PATH with
  | Some f => mode f
  | None => new_mode E
  end.

(** [sep] occurs somewhere in [s]. *)
Fixpoint occurs (sep s : string) : bool :=
  match s with
  | "" => false
  | String _ s' => Str.startswith sep s || occurs sep s'
  end.

(** The spool file of a message, as the delivery daemon expects it: the
    sender, the alphabet when it is not the default one, the
    destination, an empty line, the encoded text. *)
Definition spool_file (E : env) (txt : text) (mobile : string) : string :=
  "From: " ++ username E ++ LF ++
  (if forallb is_7bit txt then "" else "Alphabet: UCS" ++ LF) ++
  "To: " ++ mobile ++ LF ++ LF ++
  match encode_us_ascii txt with
  | Some msg => msg
  | None => encode_utf_16_be txt
  end.

(** The text of the sample requests. *)
Definition hello : text := [104; 101; 108; 108; 111]%N.


(** ** Tactics *)

Ltac run :=
  unfold bind, ret, raise, try_except, modify, log in *; cbn beta iota in *.

(** Runs the monad and the record updates of the world, nothing else. *)
Ltac wsimpl :=
  cbv beta delta
    [bind ret raise try_except modify log popen emit set_files
     tick_ticks tick_acquires tick_opens tick_draws f_seek];
  cbn beta iota zeta delta
    [files acquires opens ticks draws trace fst snd
     h_path h_pos exn_eqb content mode].

(** Brings a trace into the shape [old ++ [e1; ...; en]]. *)
Ltac tnorm := repeat rewrite <- app_assoc; cbn [app].

(** * Properties *)

(** ** Running a sequence *)

Lemma bind_ok {A B} (m : M A) (k : A -> M B) w a w1 :
  m w = (Ok a, w1) -> bind m k w = k a w1.
Proof. intros H. unfold bind. now rewrite H. Qed.

Lemma bind_raise {A B} (m : M A) (k : A -> M B) w e w1 :
  m w = (Raise e, w1) -> bind m k w = (Raise e, w1).
Proof. intros H. unfold bind. now rewrite H. Qed.

Lemma bind_inv {A B} (m : M A) (k : A -> M B) w b w' :
  bind m k w = (Ok b, w') ->
  exists a w1, m w = (Ok a, w1) /\ k a w1 = (Ok b, w').
Proof.
  unfold bind. destruct (m w) as [[a|e] w1]; [eauto|discriminate].
Qed.


(** ** StatusParser *)

Example parse_csq_ok : parse_csq "+CSQ: 17,99" = 17.
Proof. reflexivity. Qed.
Example parse_csq_one_digit : parse_csq "+CSQ: 7,0" = 7.
Proof. reflexivity. Qed.
Example parse_csq_unknown : parse_csq "+CSQ: 99,99" = 99.
Proof. reflexivity. Qed.
Example parse_csq_three_digits : parse_csq "+CSQ: 123,0" = 0.
Proof. reflexivity. Qed.
Example parse_csq_garbage : parse_csq "ERROR" = 0.
Proof. reflexivity. Qed.
Example parse_creg_first_digit : parse_creg "+CREG: 0,1" = 0.
Proof. reflexivity. Qed.
Example parse_creg_garbage : parse_creg "" = -1.
Proof. reflexivity. Qed.

Lemma is_digit_val c : Str.is_digit c = true -> 0 <= Str.digit_val c <= 9.
Proof.
  unfold Str.is_digit, Str.digit_val.
  intros H. apply andb_true_iff in H as [H1 H2].
  apply N.leb_le in H1. apply N.leb_le in H2. lia.
Qed.

Lemma digit_run_le hi s : (Str.digit_run hi s <= hi)%nat.
Proof.
  revert s. induction hi as [|hi IH]; intros [|c s]; simpl; try lia.
  destruct (Str.is_digit c); [specialize (IH s)|]; lia.
Qed.

Lemma take_digit_run n hi s :
  (n <= Str.digit_run hi s)%nat ->
  Str.all Str.is_digit (Str.take n s) = true /\ String.length (Str.take n s) = n.
Proof.
  revert hi s. induction n as [|n IH]; intros hi s Hn.
  - destruct s; simpl; auto.
  - destruct hi as [|hi], s as [|c s]; simpl in Hn; try lia.
    destruct (Str.is_digit c) eqn:Hc; [|lia].
    destruct (IH hi s) as [Ha Hl]; [lia|].
    simpl. rewrite Hc, Ha, Hl. auto.
Qed.

(** A group captured by [(\d{lo,hi})] is a run of [lo] to [hi] digits. *)
Lemma re_match_capture lo hi r s gs :
  re_match (Capture lo hi :: r) s = Some gs ->
  Str.all Str.is_digit (group1 gs) = true /\
  (lo <= String.length (group1 gs) <= hi)%nat.
Proof.
  cbn [re_match].
  generalize (Nat.le_refl (Str.digit_run hi s)).
  generalize (Str.digit_run hi s) at 1 3 as n.
  induction n as [|n IH]; intros Hn.
  - destruct (lo <=? 0)%nat eqn:Hlo; [|discriminate].
    destruct (re_match r (Str.drop 0 s)); [|discriminate].
    intros Heq. assert (gs = Str.take 0 s :: l) as -> by congruence.
    apply Nat.leb_le in Hlo.
    destruct (take_digit_run 0 hi s Hn) as [Ha Hl].
    unfold group1; cbn [nth]. rewrite Ha, Hl. split; [auto|lia].
  - destruct (lo <=? S n)%nat eqn:Hlo.
    + destruct (re_match r (Str.drop (S n) s)).
      * intros Heq. assert (gs = Str.take (S n) s :: l) as -> by congruence.
        apply Nat.leb_le in Hlo.
        destruct (take_digit_run (S n) hi s Hn) as [Ha Hl].
        unfold group1; cbn [nth]. rewrite Ha, Hl.
        pose proof (digit_run_le hi s). split; [auto|lia].
      * apply IH. lia.
    + apply IH. lia.
Qed.

Lemma re_match_lit c r s gs :
  re_match (Lit c :: r) s = Some gs -> exists s', re_match r s' = Some gs.
Proof.
  simpl. destruct s as [|d s]; [discriminate|].
  destruct (Ascii.eqb c d); [eauto|discriminate].
Qed.

Lemma int_two_digits g :
  Str.all Str.is_digit g = true -> (String.length g <= 2)%nat ->
  0 <= Str.int g <= 99.
Proof.
  intros Ha Hl. unfold Str.int.
  destruct g as [|c1 [|c2 [|c3 g]]]; simpl in *; try lia.
  - rewrite andb_true_r in Ha. apply is_digit_val in Ha. lia.
  - rewrite andb_true_r in Ha. apply andb_true_iff in Ha as [H1 H2].
    apply is_digit_val in H1. apply is_digit_val in H2. lia.
Qed.

Lemma int_one_digit g :
  Str.all Str.is_digit g = true -> (String.length g <= 1)%nat ->
  0 <= Str.int g <= 9.
Proof.
  intros Ha Hl. unfold Str.int.
  destruct g as [|c1 [|c2 g]]; simpl in *; try lia.
  rewrite andb_true_r in Ha. apply is_digit_val in Ha. lia.
Qed.

Lemma parse_csq_range s : 0 <= parse_csq s <= 99.
Proof.
  unfold parse_csq. destruct (re_match CSQ_REGEX s) as [gs|] eqn:Hm; [|lia].
  unfold CSQ_REGEX, lits in Hm. cbn [list_ascii_of_string map app] in Hm.
  repeat (apply re_match_lit in Hm as [? Hm]).
  apply re_match_capture in Hm as [Ha Hl].
  pose proof (int_two_digits _ Ha ltac:(lia)).
  destruct (group1 gs); [lia|assumption].
Qed.

Lemma parse_creg_range s : -1 <= parse_creg s <= 9.
Proof.
  unfold parse_creg. destruct (re_match CREG_REGEX s) as [gs|] eqn:Hm; [|lia].
  unfold CREG_REGEX, lits in Hm. cbn [list_ascii_of_string map app] in Hm.
  repeat (apply re_match_lit in Hm as [? Hm]).
  apply re_match_capture in Hm as [Ha Hl].
  pose proof (int_one_digit _ Ha ltac:(lia)).
  destruct (group1 gs); lia.
Qed.

(** C10: for every input string [parse_csq] returns an integer between 0
    and 99 and [parse_creg] an integer between -1 and 9; both are total
    functions, so neither raises; and the upper-bound comparison
    [csq_status < 99] of the health check fails for the value 99 only. *)
Theorem parsers_ranges (s : string) :
  (0 <= parse_csq s <= 99) /\
  (-1 <= parse_creg s <= 9) /\
  (parse_csq s <? 99) = negb (parse_csq s =? 99).
Proof.
  pose proof (parse_csq_range s). pose proof (parse_creg_range s).
  split; [lia|]. split; [lia|].
  destruct (Z.ltb_spec (parse_csq s) 99), (Z.eqb_spec (parse_csq s) 99);
    simpl; try reflexivity; lia.
Qed.

(** ** MessageEncoder *)

(** [ceiling n d] is the least integer [k] with [n <= d * k]. *)
Lemma ceiling_exact n d :
  0 < d -> d * (ceiling n d - 1) < n <= d * ceiling n d.
Proof.
  intros Hd. unfold ceiling.
  pose proof (Z.div_mod (n + d - 1) d ltac:(lia)).
  pose proof (Z.mod_pos_bound (n + d - 1) d Hd).
  nia.
Qed.

Lemma ceiling_least n d k : 0 < d -> n <= d * k -> ceiling n d <= k.
Proof.
  intros Hd Hk. pose proof (ceiling_exact n d Hd). nia.
Qed.

(** Python's [n / d + (n % d > 0)] is the ceiling. *)
Lemma floor_plus_remainder n d :
  0 < d -> n / d + b2z (n mod d >? 0) = ceiling n d.
Proof.
  intros Hd.
  pose proof (ceiling_exact n d Hd) as Hc.
  pose proof (Z.div_mod n d ltac:(lia)) as Hdm.
  pose proof (Z.mod_pos_bound n d Hd) as Hb.
  unfold b2z. destruct (n mod d >? 0) eqn:Hr.
  - apply Z.gtb_lt in Hr. nia.
  - assert (n mod d = 0) by (rewrite Z.gtb_ltb in Hr; apply Z.ltb_ge in Hr; lia).
    nia.
Qed.

Example encode_hello :
  encode_block [104; 101; 108; 108; 111]%N 1 false = ("hello", 1, false).
Proof. reflexivity. Qed.

Example encode_161_letters :
  snd (fst (encode_block (letters 161) 1 false)) = 2.
Proof. vm_compute. reflexivity. Qed.

Example encode_306_letters :
  snd (fst (encode_block (letters 306) 1 false)) = 2.
Proof. vm_compute. reflexivity. Qed.

Example encode_euro :
  encode_block [8364]%N 1 false
  = (String (ascii_of_N 32) (String (ascii_of_N 172) ""), 1, true).
Proof. reflexivity. Qed.

Example encode_71_euros :
  snd (fst (encode_block (repeat 8364%N 71) 1 false)) = 2.
Proof. vm_compute. reflexivity. Qed.

(** The part count of the encoder, from the initial locals. *)
Lemma parts_formula txt :
  snd (fst (encode_block txt 1 false))
  = if forallb is_7bit txt
    then (if len txt <=? 160 then 1 else ceiling (len txt) 153)
    else (if len txt <=? 70 then 1 else ceiling (len txt) 67).
Proof.
  unfold encode_block, encode_us_ascii.
  destruct (forallb is_7bit txt); cbn [fst snd];
    rewrite floor_plus_remainder by lia; rewrite Z.gtb_ltb.
  - destruct (Z.ltb_spec 160 (len txt)), (Z.leb_spec (len txt) 160);
      try reflexivity; lia.
  - destruct (Z.ltb_spec 70 (len txt)), (Z.leb_spec (len txt) 70);
      try reflexivity; lia.
Qed.

(** C3: a text of 7-bit characters only is encoded in the DEFAULT
    alphabet, with one part up to 160 characters and the ceiling of
    [L / 153] parts above; a text with a character outside the 7-bit
    range is encoded in UCS2, with one part up to 70 characters and the
    ceiling of [L / 67] parts above. *)
Theorem encoder_alphabet_and_parts (txt : text) :
  let L := len txt in
  let '(msg, parts_count, ucs_field) := encode_block txt 1 false in
  if forallb is_7bit txt
  then encode_us_ascii txt = Some msg /\
       chosen_alphabet ucs_field = DEFAULT /\
       parts_count = (if L <=? 160 then 1 else ceiling L 153)
  else msg = encode_utf_16_be txt /\
       chosen_alphabet ucs_field = UCS2 /\
       parts_count = (if L <=? 70 then 1 else ceiling L 67).
Proof.
  unfold encode_block, encode_us_ascii.
  destruct (forallb is_7bit txt); cbn zeta.
  - split; [reflexivity|]. split; [reflexivity|].
    rewrite floor_plus_remainder by lia.
    rewrite Z.gtb_ltb.
    destruct (Z.ltb_spec 160 (len txt)), (Z.leb_spec (len txt) 160);
      try reflexivity; lia.
  - split; [reflexivity|]. split; [reflexivity|].
    rewrite floor_plus_remainder by lia.
    rewrite Z.gtb_ltb.
    destruct (Z.ltb_spec 70 (len txt)), (Z.leb_spec (len txt) 70);
      try reflexivity; lia.
Qed.

Lemma parts_of_7bit (txt : text) :
  forallb is_7bit txt = true ->
  snd (fst (encode_block txt 1 false))
  = if len txt <=? 160 then 1 else ceiling (len txt) 153.
Proof.
  intros H7. rewrite parts_formula, H7. reflexivity.
Qed.

Lemma letters_7bit n : forallb is_7bit (letters n) = true.
Proof. induction n; simpl; auto. Qed.

Lemma len_letters n : len (letters n) = Z.of_nat n.
Proof. unfold len, letters. now rewrite repeat_length. Qed.

(** C4 as stated fails: 307 letters [a] are 7-bit text of a length in
    (160, 313], and they make three parts. *)
Lemma two_parts_up_to_313_fails :
  ~ (forall txt : text,
       forallb is_7bit txt = true -> 160 < len txt <= 313 ->
       snd (fst (encode_block txt 1 false)) = 2).
Proof.
  intros H. specialize (H (letters 307) (letters_7bit 307)).
  rewrite len_letters in H. specialize (H ltac:(lia)).
  rewrite parts_of_7bit in H by apply letters_7bit.
  rewrite len_letters in H. vm_compute in H. discriminate.
Qed.

(** C4, amended: a 7-bit text of a length in (160, 306] makes two
    parts. *)
Theorem two_parts_up_to_306 (txt : text) :
  forallb is_7bit txt = true -> 160 < len txt <= 306 ->
  snd (fst (encode_block txt 1 false)) = 2.
Proof.
  intros H7 HL. rewrite parts_of_7bit by assumption.
  destruct (Z.leb_spec (len txt) 160); [lia|].
  pose proof (ceiling_exact (len txt) 153 ltac:(lia)). lia.
Qed.

Lemma two_parts_up_to_306_witness :
  snd (fst (encode_block (letters 306) 1 false)) = 2.
Proof.
  apply (two_parts_up_to_306 (letters 306)).
  - vm_compute. reflexivity.
  - vm_compute. split; [reflexivity | discriminate].
Defined.

(** ** ModemChannel *)

Lemma dev_readline_raises d e w w' :
  dev_readline d w = (Raise e, w') -> e = SerialException.
Proof.
  unfold dev_readline. destruct (replies d) as [|[line|] rest]; run; congruence.
Qed.

(** The device only ever raises [SerialException]. *)
Lemma query_raises E cmd e w w' :
  query E cmd w = (Raise e, w') -> e = SerialException.
Proof.
  unfold query, bind.
  unfold serial_open. destruct (open_fails (serial_dev E (opens w))); [congruence|].
  unfold dev_write. destruct (write_fails (serial_dev E (opens w))) eqn:Hw;
    [unfold raise; congruence|unfold ret at 1].
  destruct (dev_readline (serial_dev E (opens w)) (tick_opens w))
    as [[r1|e1] w1] eqn:H1; [|apply dev_readline_raises in H1; congruence].
  destruct (Str.startswith "AT" (fst r1)).
  - destruct (dev_readline (snd r1) w1) as [[r2|e2] w2] eqn:H2;
      [|apply dev_readline_raises in H2; congruence].
    destruct (dev_readline (snd r2) w2) as [[r3|e3] w3] eqn:H3;
      [unfold ret; congruence|apply dev_readline_raises in H3; congruence].
  - unfold ret at 1.
    destruct (dev_readline (snd r1) w1) as [[r3|e3] w3] eqn:H3;
      [unfold ret; congruence|apply dev_readline_raises in H3; congruence].
Qed.

Lemma exchange_raises E cmd e w w' :
  exchange E cmd w = (Raise e, w') -> e = LockTimeout \/ e = SerialException.
Proof.
  unfold exchange, bind, acquire.
  destruct (lock_free E (acquires w)); [|left; congruence].
  intros H. right.
  destruct (query E cmd (tick_acquires w)) as [[r|e'] w1] eqn:Hq; [congruence|].
  apply query_raises in Hq. congruence.
Qed.

(** Both channel functions turn every failure of the exchange into the
    sentinel pair. *)
Lemma channel_handlers E cmd sentinel w :
  match exchange E cmd w with
  | (Ok r, w') =>
      try_except
        (acquire E ;;;
         try_except (query E cmd) SerialException
           (log "warning" "unable to read from serial device: %s" ;;;
            ret (sentinel, OkFalse)))
        LockTimeout
        (log "warning" "couldn't obtain lock for serial device: %s" ;;;
         ret (sentinel, OkFalse)) w = (Ok r, w')
  | (Raise e, w') =>
      exists message,
      try_except
        (acquire E ;;;
         try_except (query E cmd) SerialException
           (log "warning" "unable to read from serial device: %s" ;;;
            ret (sentinel, OkFalse)))
        LockTimeout
        (log "warning" "couldn't obtain lock for serial device: %s" ;;;
         ret (sentinel, OkFalse)) w
      = (Ok (sentinel, OkFalse), emit (Log "warning" message) w')
  end.
Proof.
  destruct (exchange E cmd w) as [[r|e] w'] eqn:Hx.
  - unfold exchange in Hx. run. unfold acquire in *.
    destruct (lock_free E (acquires w)); [|congruence].
    destruct (query E cmd (tick_acquires w)) as [[r'|e'] w1]; congruence.
  - pose proof (exchange_raises _ _ _ _ _ Hx) as He.
    unfold exchange in Hx. run. unfold acquire in *.
    destruct (lock_free E (acquires w)).
    + destruct (query E cmd (tick_acquires w)) as [[r'|e'] w1] eqn:Hq; [congruence|].
      apply query_raises in Hq. subst e'. simpl.
      injection Hx as <- <-. eauto.
    + injection Hx as <- <-. simpl. eauto.
Qed.

Example csq_lock_timeout :
  fst (get_csq (Example.env_of (fun _ => Example.csq_session "20") (fun _ => false)
                  (fun _ => 0 # 1)) (Example.world_of ∅))
  = Ok (RInt 0, OkFalse).
Proof. reflexivity. Qed.

Example csq_open_fails :
  fst (get_csq (Example.env_of (fun _ => Example.no_session) (fun _ => true)
                  (fun _ => 0 # 1)) (Example.world_of ∅))
  = Ok (RInt 0, OkFalse).
Proof. reflexivity. Qed.

Example creg_write_fails :
  fst (get_creg (Example.env_of (fun _ => Session false true []) (fun _ => true)
                   (fun _ => 0 # 1)) (Example.world_of ∅))
  = Ok (RNone, OkFalse).
Proof. reflexivity. Qed.

Example creg_read_fails :
  fst (get_creg (Example.env_of (fun _ => Session false false [Some "AT+CREG?"; None])
                   (fun _ => true) (fun _ => 0 # 1)) (Example.world_of ∅))
  = Ok (RNone, OkFalse).
Proof. reflexivity. Qed.

Example csq_garbage_reply :
  fst (get_csq (Example.env_of (fun _ => Session false false [Some "@@@"]) (fun _ => true)
                  (fun _ => 0 # 1)) (Example.world_of ∅))
  = Ok (RStr "@@@", OkStr "").
Proof. reflexivity. Qed.

(** C8: whatever the lock and the serial device do, [get_csq] and
    [get_creg] return a value.  When the exchange with the modem succeeds
    they return its result; when it raises -- which it does through a
    lock timeout or a [SerialException] of the device only -- they return
    the sentinel ([0], resp. [None]) paired with [False], and log one
    warning. *)
Theorem channel_failures_are_values (E : env) (w : world) :
  match exchange E ("AT+CSQ" ++ CRLF) w with
  | (Ok r, w') => get_csq E w = (Ok r, w')
  | (Raise e, w') =>
      (e = LockTimeout \/ e = SerialException) /\
      exists message,
        get_csq E w = (Ok (RInt 0, OkFalse), emit (Log "warning" message) w')
  end /\
  match exchange E ("AT+CREG?" ++ CRLF) w with
  | (Ok r, w') => get_creg E w = (Ok r, w')
  | (Raise e, w') =>
      (e = LockTimeout \/ e = SerialException) /\
      exists message,
        get_creg E w = (Ok (RNone, OkFalse), emit (Log "warning" message) w')
  end.
Proof.
  split.
  - pose proof (channel_handlers E ("AT+CSQ" ++ CRLF) (RInt 0) w) as H.
    destruct (exchange E ("AT+CSQ" ++ CRLF) w) as [[r|e] w'] eqn:Hx; [exact H|].
    split; [eapply exchange_raises; eassumption | exact H].
  - pose proof (channel_handlers E ("AT+CREG?" ++ CRLF) RNone w) as H.
    destruct (exchange E ("AT+CREG?" ++ CRLF) w) as [[r|e] w'] eqn:Hx; [exact H|].
    split; [eapply exchange_raises; eassumption | exact H].
Qed.


(** ** ResetGovernor *)

Lemma take_app_length a b : Str.take (String.length a) (a ++ b) = a.
Proof. induction a as [|c a IH]; simpl; [destruct b|rewrite IH]; reflexivity. Qed.

Lemma take_all a : Str.take (String.length a) a = a.
Proof. induction a as [|c a IH]; simpl; [|rewrite IH]; reflexivity. Qed.

Lemma drop_all a n : (String.length a <= n)%nat -> Str.drop n a = "".
Proof.
  revert n. induction a as [|c a IH]; intros [|n] H; simpl in *; try reflexivity; try lia.
  apply IH. lia.
Qed.

Lemma app_empty_r (a : string) : a ++ "" = a.
Proof.
  induction a as [|c a IH]; [reflexivity|].
  change (String c (a ++ "") = String c a). f_equal. exact IH.
Qed.

(** Seeking to the start, writing [s] and truncating leaves exactly [s]. *)
Lemma rewrite_from_start c s :
  Str.take (0 + String.length s)
    (Str.take 0 c ++ s ++ Str.drop (0 + String.length s) c) = s.
Proof.
  assert (Str.take 0 c = "") as -> by (destruct c; reflexivity).
  change ("" ++ s ++ Str.drop (0 + String.length s) c)
    with (s ++ Str.drop (0 + String.length s) c).
  apply take_app_length.
Qed.

Lemma Qgtb_true a b : Qgtb a b = true <-> (b < a)%Q.
Proof.
  unfold Qgtb. rewrite negb_true_iff. split.
  - intros H. apply Qnot_le_lt. intros Hle. apply Qle_bool_iff in Hle. congruence.
  - intros H. destruct (Qle_bool a b) eqn:Hb; [|reflexivity].
    apply Qle_bool_iff in Hb. exfalso. apply (Qlt_not_le _ _ H Hb).
Qed.

Lemma Qgtb_false a b : Qgtb a b = false <-> (a <= b)%Q.
Proof.
  unfold Qgtb. rewrite negb_false_iff. apply Qle_bool_iff.
Qed.

Lemma float_gt_irrefl x : float_gt x x = false.
Proof.
  destruct x as [q| | |]; try reflexivity.
  cbn [float_gt]. apply Qgtb_false. apply Qle_refl.
Qed.

(** The call of [perform_reset], from any world. *)
Lemma perform_reset_run E w :
  perform_reset E w =
  let w1 := tick_acquires (emit (Log "info" "resetting modem...") w) in
  if lock_free E (acquires w)
  then if executable E RESET_MODEM
       then (Ok tt, emit (Popen RESET_MODEM) w1)
       else (Raise OSError, w1)
  else (Ok tt,
        emit (Log "warning" "perform_reset: unable to obtain lock for serial device") w1).
Proof.
  destruct w as [fs na no nt nd tr].
  unfold perform_reset, acquire. wsimpl.
  destruct (lock_free E na); [|reflexivity].
  wsimpl. destruct (executable E RESET_MODEM); reflexivity.
Qed.

(** Opening the state file. *)
Lemma get_modem_reset_file_run E w :
  let P := MODEM_RESET_TIMESTAMP_PATH in
  get_modem_reset_file E w =
  match files w !! P with
  | Some _ => (Ok (Handle P 0, false), w)
  | None =>
      if may_create E P
      then (Ok (Handle P 0, true),
            set_files (<[P := File "" (new_mode E)]> (files w)) w)
      else (Raise IOError, w)
  end.
Proof.
  cbn zeta. unfold get_modem_reset_file, try_except, bind, open_rplus, open_w, ret.
  destruct (files w !! MODEM_RESET_TIMESTAMP_PATH) as [f|] eqn:Hf; [reflexivity|].
  cbn [exn_eqb]. rewrite Hf.
  destruct (may_create E MODEM_RESET_TIMESTAMP_PATH); reflexivity.
Qed.

(** Reading [last] from a state file that is there. *)
Lemma read_last_run E f w :
  let P := MODEM_RESET_TIMESTAMP_PATH in
  files w !! P = Some f ->
  bind (f_read (Handle P 0))
    (fun rd =>
       bind (try_except (float E (PyStr.strip (fst rd))) ValueError
               (ret (Finite (0 # 1))))
         (fun last => ret (last, snd rd))) w
  = (Ok (match read_float E (PyStr.strip (content f)) with
         | Some x => x
         | None => Finite (0 # 1)
         end,
         Handle P (String.length (content f))), w).
Proof.
  cbn zeta. intros Hf. unfold bind at 1, f_read. cbn [h_path h_pos]. rewrite Hf.
  cbn [fst snd].
  assert (Hd : Str.drop 0 (content f) = content f)
    by (destruct (content f); reflexivity).
  rewrite Hd. unfold bind, try_except, float.
  destruct (read_float E (PyStr.strip (content f))); reflexivity.
Qed.

(** The stamp: seeking to the start, writing and truncating. *)
Lemma stamp_run c m s fs na no nt nd tr :
  let P := MODEM_RESET_TIMESTAMP_PATH in
  fs !! P = Some (File c m) ->
  bind (f_write (Handle P 0) s) f_truncate (World fs na no nt nd tr)
  = (Ok tt, World (<[P := File s m]> fs) na no nt nd (tr ++ [Wrote P s])).
Proof.
  cbn zeta. intros Hf. unfold bind, f_write, f_truncate.
  cbn [h_path h_pos files]. rewrite Hf.
  cbn [h_path h_pos files set_files emit content mode acquires opens ticks draws trace].
  rewrite lookup_insert_eq. cbn [content mode].
  rewrite insert_insert_eq, rewrite_from_start. reflexivity.
Qed.

(** What one call of [reset_modem] does, in full. *)
Lemma reset_modem_run E w :
  let now' := time_at E (S (ticks w)) in
  let P := MODEM_RESET_TIMESTAMP_PATH in
  let stamped := <[P := File (py_str E now') (stamp_mode E w)]> (files w) in
  let seen := [ResetModemCalled; Log "info" "last modem reset: %d"] in
  reset_modem E w =
  if state_file_opens E w
  then
    if elapsed_exceeds E w
    then
      if lock_free E (acquires w)
      then
        if executable E RESET_MODEM
        then
          (Ok tt,
           World stamped (S (acquires w)) (opens w) (S (S (ticks w))) (draws w)
             (trace w ++ seen ++
              [Log "info" "resetting modem..."; Popen RESET_MODEM;
               Wrote P (py_str E now')]))
        else
          (Raise OSError,
           World (state_file_opened E w) (S (acquires w)) (opens w) (S (ticks w))
             (draws w) (trace w ++ seen ++ [Log "info" "resetting modem..."]))
      else
        (Ok tt,
         World stamped (S (acquires w)) (opens w) (S (S (ticks w))) (draws w)
           (trace w ++ seen ++
            [Log "info" "resetting modem...";
             Log "warning" "perform_reset: unable to obtain lock for serial device";
             Wrote P (py_str E now')]))
    else
      (Ok tt,
       World (state_file_opened E w) (acquires w) (opens w) (S (ticks w)) (draws w)
         (trace w ++ seen))
  else
    (Raise IOError,
     World (files w) (acquires w) (opens w) (S (ticks w)) (draws w)
       (trace w ++ [ResetModemCalled])).
Proof.
  cbn zeta. destruct w as [fs na no nt nd tr].
  unfold elapsed_exceeds, last_reset, stamp_mode, state_file_opens, state_file_opened.
  cbn [files acquires opens ticks draws trace].
  unfold reset_modem.
  unfold bind at 1, modify, emit. cbn [files acquires opens ticks draws trace].
  unfold bind at 1, time_time, tick_ticks. cbn [files acquires opens ticks draws trace].
  unfold bind at 1. rewrite get_modem_reset_file_run. cbn zeta.
  cbn [files acquires opens ticks draws trace].
  (* the rest of the run, from the moment [last] is known *)
  assert (Hrest : forall (last : pyfloat) f0 fs0 h,
    fs0 !! MODEM_RESET_TIMESTAMP_PATH = Some f0 ->
    h_path h = MODEM_RESET_TIMESTAMP_PATH ->
    bind (log "info" "last modem reset: %d")
      (fun _ =>
         if float_gt (float_sub (Finite (time_at E nt)) last)
              (Finite (minimum_reset_interval E))
         then
           bind (perform_reset E)
             (fun _ =>
                bind (time_time E)
                  (fun t =>
                     bind (f_write (f_seek h 0) (py_str E t)) f_truncate))
         else ret tt)
      (World fs0 na no (S nt) nd (tr ++ [ResetModemCalled]))
    = if float_gt (float_sub (Finite (time_at E nt)) last)
           (Finite (minimum_reset_interval E))
      then
        if lock_free E na
        then
          if executable E RESET_MODEM
          then
            (Ok tt,
             World (<[MODEM_RESET_TIMESTAMP_PATH
                      := File (py_str E (time_at E (S nt))) (mode f0)]> fs0)
               (S na) no (S (S nt)) nd
               (tr ++ [ResetModemCalled; Log "info" "last modem reset: %d";
                       Log "info" "resetting modem..."; Popen RESET_MODEM;
                       Wrote MODEM_RESET_TIMESTAMP_PATH (py_str E (time_at E (S nt)))]))
          else
            (Raise OSError,
             World fs0 (S na) no (S nt) nd
               (tr ++ [ResetModemCalled; Log "info" "last modem reset: %d";
                       Log "info" "resetting modem..."]))
        else
          (Ok tt,
           World (<[MODEM_RESET_TIMESTAMP_PATH
                    := File (py_str E (time_at E (S nt))) (mode f0)]> fs0)
             (S na) no (S (S nt)) nd
             (tr ++ [ResetModemCalled; Log "info" "last modem reset: %d";
                     Log "info" "resetting modem...";
                     Log "warning" "perform_reset: unable to obtain lock for serial device";
                     Wrote MODEM_RESET_TIMESTAMP_PATH (py_str E (time_at E (S nt)))]))
      else
        (Ok tt,
         World fs0 na no (S nt) nd
           (tr ++ [ResetModemCalled; Log "info" "last modem reset: %d"]))).
  { intros last [c0 m0] fs0 [hp hpos] Hf0 Hh. cbn [h_path] in Hh. subst hp.
    unfold bind at 1, log, modify, emit.
    cbn [files acquires opens ticks draws trace].
    destruct (float_gt (float_sub (Finite (time_at E nt)) last)
                (Finite (minimum_reset_interval E)));
      [|unfold ret; tnorm; reflexivity].
    unfold bind at 1. rewrite perform_reset_run. cbn zeta.
    unfold emit, tick_acquires. cbn [files acquires opens ticks draws trace].
    destruct (lock_free E na).
    - destruct (executable E RESET_MODEM); [|tnorm; reflexivity].
      unfold bind at 1, time_time, tick_ticks, f_seek.
      cbn [files acquires opens ticks draws trace h_path].
      rewrite (stamp_run c0 m0 _ _ _ _ _ _ _ Hf0). tnorm. reflexivity.
    - unfold bind at 1, time_time, tick_ticks, f_seek.
      cbn [files acquires opens ticks draws trace h_path].
      rewrite (stamp_run c0 m0 _ _ _ _ _ _ _ Hf0). tnorm. reflexivity. }
  destruct (fs !! MODEM_RESET_TIMESTAMP_PATH) as [f|] eqn:Hf.
  - (* the state file is there *)
    cbn [fst snd].
    rewrite (bind_ok _ _ _ _ _
               (read_last_run E f (World fs na no (S nt) nd (tr ++ [ResetModemCalled]))
                  Hf)).
    cbn [fst snd].
    apply (Hrest _ f fs (Handle MODEM_RESET_TIMESTAMP_PATH _) Hf eq_refl).
  - (* the state file is missing *)
    destruct (may_create E MODEM_RESET_TIMESTAMP_PATH); [|reflexivity].
    cbn [fst snd]. unfold set_files. cbn [files acquires opens ticks draws trace].
    unfold bind at 1, ret. cbn [fst snd].
    rewrite (Hrest _ (File "" (new_mode E)) _ (Handle MODEM_RESET_TIMESTAMP_PATH _)
               (lookup_insert_eq _ _ _) eq_refl).
    cbn [mode]. rewrite insert_insert_eq. reflexivity.
Qed.

Lemma count_app p tr tr' : count p (tr ++ tr') = (count p tr + count p tr')%nat.
Proof. unfold count. rewrite List.filter_app. apply List.length_app. Qed.

Lemma last_reset_files E w w' :
  files w' = files w -> last_reset E w' = last_reset E w.
Proof. unfold last_reset. now intros ->. Qed.

(** An empty state file reads as a missing one. *)
Lemma last_reset_opened E w fs :
  fs = state_file_opened E w ->
  match fs !! MODEM_RESET_TIMESTAMP_PATH with
  | Some f =>
      match read_float E (PyStr.strip (content f)) with
      | Some x => x
      | None => Finite (0 # 1)
      end
  | None => Finite (0 # 1)
  end = last_reset E w.
Proof.
  intros ->. unfold state_file_opened, last_reset.
  destruct (files w !! MODEM_RESET_TIMESTAMP_PATH) as [f|] eqn:Hf.
  - now rewrite Hf.
  - rewrite lookup_insert_eq. reflexivity.
Qed.

(** The value read back from a stamp is not below the timestamp that
    made the reset due. *)
Lemma stamp_not_below E w v :
  elapsed_exceeds E w = true ->
  (time_at E (ticks w) <= time_at E (S (ticks w)))%Q ->
  (time_at E (S (ticks w)) - v <= minimum_reset_interval E)%Q ->
  float_gt (last_reset E w) (Finite v) = false.
Proof.
  unfold elapsed_exceeds. intros Hex Hclock Hloss.
  destruct (last_reset E w) as [l| | |]; cbn [float_sub float_gt] in *;
    try discriminate; try reflexivity.
  apply Qgtb_true in Hex. apply Qgtb_false. lra.
Qed.

Example cooldown_holds :
  let E := Example.env_of (fun _ => Example.no_session) (fun _ => true)
             (fun _ => 1000 # 1) in
  let w := Example.world_of {[ MODEM_RESET_TIMESTAMP_PATH := File "900.0" 420 ]} in
  reset_due E w = false /\
  files (snd (reset_modem E w)) = files w /\
  launches (trace (snd (reset_modem E w))) = 0%nat.
Proof. vm_compute. auto. Qed.

Example cooldown_over :
  let E := Example.env_of (fun _ => Example.no_session) (fun _ => true)
             (fun _ => 1000 # 1) in
  let w := Example.world_of {[ MODEM_RESET_TIMESTAMP_PATH := File "600.0" 420 ]} in
  reset_due E w = true /\
  files (snd (reset_modem E w)) !! MODEM_RESET_TIMESTAMP_PATH
    = Some (File "1000.0" 420) /\
  launches (trace (snd (reset_modem E w))) = 1%nat.
Proof. vm_compute. auto. Qed.

Example first_run_resets :
  let E := Example.env_of (fun _ => Example.no_session) (fun _ => true)
             (fun _ => 1000 # 1) in
  let w := Example.world_of ∅ in
  files (snd (reset_modem E w)) !! MODEM_RESET_TIMESTAMP_PATH
    = Some (File "1000.0" 420) /\
  launches (trace (snd (reset_modem E w))) = 1%nat.
Proof. vm_compute. auto. Qed.

Example corrupt_file_resets :
  let E := Example.env_of (fun _ => Example.no_session) (fun _ => true)
             (fun _ => 1000 # 1) in
  let w := Example.world_of {[ MODEM_RESET_TIMESTAMP_PATH := File "99x" 420 ]} in
  files (snd (reset_modem E w)) !! MODEM_RESET_TIMESTAMP_PATH
    = Some (File "1000.0" 420) /\
  launches (trace (snd (reset_modem E w))) = 1%nat.
Proof. vm_compute. auto. Qed.

(** A state file that holds [nan] or [inf] is read without an error
    and keeps every later call from resetting. *)
Example nan_never_resets :
  let E := Example.env_of (fun _ => Example.no_session) (fun _ => true)
             (fun n => Z.of_nat n * 1000000 # 1) in
  let w := Example.world_of {[ MODEM_RESET_TIMESTAMP_PATH := File "nan" 420 ]} in
  let w1 := snd (reset_modem E w) in
  let w2 := snd (reset_modem E w1) in
  reset_due E w = false /\ reset_due E w1 = false /\
  files w2 = files w /\ launches (trace w2) = 0%nat.
Proof. vm_compute. auto. Qed.

(** The script is missing: the error of [Popen] leaves [reset_modem],
    and the state file, just created, stays empty. *)
Example missing_script_raises :
  let E := Example.env_with (fun _ => Example.no_session) (fun _ => true)
             (fun _ => 1000 # 1) true false in
  let r := reset_modem E (Example.world_of ∅) in
  fst r = Raise OSError /\
  files (snd r) !! MODEM_RESET_TIMESTAMP_PATH = Some (File "" 420) /\
  launches (trace (snd r)) = 0%nat.
Proof. vm_compute. auto. Qed.

(** C6 as stated fails, in two places.  With the state file at 500, the
    clock at 1000 and the interval 300 a reset is due; when the lock
    times out the reset script is not launched, where the claim has
    the reset action invoked once.  And with the state file at 600 and
    a clock that reads 1000 and then, set back, 500, the reset is due
    and the value persisted is 500: it has decreased. *)
Lemma reset_governor_as_stated_fails :
  ~ (forall (E : env) (w : world),
       reset_due E w = true ->
       launches (trace (snd (reset_modem E w))) = S (launches (trace w))) /\
  ~ (forall (E : env) (w : world),
       float_gt (last_reset E w) (last_reset E (snd (reset_modem E w))) = false).
Proof.
  split.
  - intros H.
    set (E := Example.env_of (fun _ => Example.no_session) (fun _ => false)
                (fun _ => 1000 # 1)).
    set (w := Example.world_of {[ MODEM_RESET_TIMESTAMP_PATH := File "500.0" 420 ]}).
    assert (Hdue : reset_due E w = true) by (vm_compute; reflexivity).
    assert (Hafter : launches (trace (snd (reset_modem E w))) = 0%nat)
      by (vm_compute; reflexivity).
    assert (Hbefore : launches (trace w) = 0%nat) by (vm_compute; reflexivity).
    pose proof (H E w Hdue) as Hone. rewrite Hafter, Hbefore in Hone.
    discriminate Hone.
  - intros H.
    set (E := Example.env_of (fun _ => Example.no_session) (fun _ => true)
                (fun n => match n with O => 1000 # 1 | _ => 500 # 1 end)).
    set (w := Example.world_of {[ MODEM_RESET_TIMESTAMP_PATH := File "600.0" 420 ]}).
    assert (Hdec : float_gt (last_reset E w) (last_reset E (snd (reset_modem E w)))
                   = true) by (vm_compute; reflexivity).
    pose proof (H E w) as Hsame. rewrite Hdec in Hsame. discriminate Hsame.
Qed.

(** C6, amended.  [reset_modem] takes the persisted timestamp [last] to
    be 0 when the state file is missing or holds nothing that [float]
    reads, and compares [now - last] with the configured minimum
    interval (300 when none is configured).  A state file that can be
    neither opened nor created makes [IOError] leave the function
    before anything is decided.  When the difference does not exceed
    the interval nothing is reset and the persisted state stays as it
    is (a missing state file comes into being, empty, and still reads
    as 0).  When it does, [perform_reset] is called once: with the
    device lock it launches the reset script once, and the text of a
    fresh reading of the clock becomes the content of the state file;
    without the lock nothing is launched and the state file is written
    all the same; when the script cannot be started, [OSError] leaves
    the function and the state file is not written.  The persisted
    value does not decrease as long as the clock does not step back
    between the two readings and writing the time as text loses no more
    than the minimum interval. *)
Theorem reset_governor (E : env) (w : world) :
  let P := MODEM_RESET_TIMESTAMP_PATH in
  let now := time_at E (ticks w) in
  let now' := time_at E (S (ticks w)) in
  let last :=
    match files w !! P with
    | Some f => match read_float E (PyStr.strip (content f)) with
                | Some x => x
                | None => Finite (0 # 1)
                end
    | None => Finite (0 # 1)
    end in
  let interval :=
    match MODEM_MINIMUM_RESET_INTERVAL E with
    | Some x => x
    | None => 300 # 1
    end in
  let exceeds := float_gt (float_sub (Finite now) last) (Finite interval) in
  let stamped := <[P := File (py_str E now') (stamp_mode E w)]> (files w) in
  let out := fst (reset_modem E w) in
  let w' := snd (reset_modem E w) in
  (state_file_opens E w = false ->
     out = Raise IOError /\
     perform_calls (trace w') = perform_calls (trace w) /\
     launches (trace w') = launches (trace w) /\
     files w' = files w) /\
  (state_file_opens E w = true -> exceeds = false ->
     out = Ok tt /\
     perform_calls (trace w') = perform_calls (trace w) /\
     launches (trace w') = launches (trace w) /\
     acquires w' = acquires w /\
     files w' = state_file_opened E w) /\
  (state_file_opens E w = true -> exceeds = true ->
     perform_calls (trace w') = S (perform_calls (trace w)) /\
     if lock_free E (acquires w)
     then
       if executable E RESET_MODEM
       then out = Ok tt /\
            launches (trace w') = S (launches (trace w)) /\
            files w' = stamped
       else out = Raise OSError /\
            launches (trace w') = launches (trace w) /\
            files w' = state_file_opened E w
     else out = Ok tt /\
          launches (trace w') = launches (trace w) /\
          files w' = stamped) /\
  ((now <= now')%Q -> stamp_reads_back E now' ->
   float_gt (last_reset E w) (last_reset E w') = false).
Proof.
  cbn zeta. pose proof (reset_modem_run E w) as Hrun. cbn zeta in Hrun.
  fold (last_reset E w). fold (minimum_reset_interval E). fold (elapsed_exceeds E w).
  unfold perform_calls, launches.
  destruct (state_file_opens E w) eqn:Hopen.
  - split; [discriminate|].
    destruct (elapsed_exceeds E w) eqn:Hex.
    + split; [discriminate|].
      destruct (lock_free E (acquires w)).
      * destruct (executable E RESET_MODEM).
        -- rewrite Hrun. cbn [fst snd trace files acquires].
           split.
           { intros _ _. rewrite !count_app. cbn. split; [lia|].
             split; [reflexivity|]. split; [lia|reflexivity]. }
           intros Hclock (v & Hv & Hloss).
           unfold last_reset at 2. cbn [files]. rewrite lookup_insert_eq.
           cbn [content]. rewrite Hv.
           apply (stamp_not_below E w v Hex Hclock Hloss).
        -- rewrite Hrun. cbn [fst snd trace files acquires].
           split.
           { intros _ _. rewrite !count_app. cbn. split; [lia|].
             split; [reflexivity|]. split; [lia|reflexivity]. }
           intros _ _. unfold last_reset at 2. cbn [files].
           rewrite (last_reset_opened E w _ eq_refl). apply float_gt_irrefl.
      * rewrite Hrun. cbn [fst snd trace files acquires].
        split.
        { intros _ _. rewrite !count_app. cbn. split; [lia|].
          split; [reflexivity|]. split; [lia|reflexivity]. }
        intros Hclock (v & Hv & Hloss).
        unfold last_reset at 2. cbn [files]. rewrite lookup_insert_eq.
        cbn [content]. rewrite Hv.
        apply (stamp_not_below E w v Hex Hclock Hloss).
    + rewrite Hrun. cbn [fst snd trace files acquires].
      split.
      { intros _ _. rewrite !count_app. cbn. repeat split; lia. }
      split; [discriminate|].
      intros _ _. unfold last_reset at 2. cbn [files].
      rewrite (last_reset_opened E w _ eq_refl). apply float_gt_irrefl.
  - rewrite Hrun. cbn [fst snd trace files acquires].
    split.
    { intros _. rewrite !count_app. cbn. repeat split; lia. }
    split; [discriminate|]. split; [discriminate|].
    intros _ _. fold (last_reset E w). apply float_gt_irrefl.
Qed.

Lemma reset_governor_witness :
  let E := Example.env_of (fun _ => Example.no_session) (fun _ => true)
             (fun n => match n with O => 1000 # 1 | _ => 1001 # 1 end) in
  let w := Example.world_of {[ MODEM_RESET_TIMESTAMP_PATH := File "600.0" 420 ]} in
  fst (reset_modem E w) = Ok tt /\
  launches (trace (snd (reset_modem E w))) = 1%nat /\
  files (snd (reset_modem E w)) !! MODEM_RESET_TIMESTAMP_PATH
  = Some (File "1001.0" 420) /\
  float_gt (last_reset E w) (last_reset E (snd (reset_modem E w))) = false.
Proof.
  intros E w.
  destruct (reset_governor E w) as (_ & _ & Hdue & Hmono). cbn zeta in Hdue.
  assert (Hopen : state_file_opens E w = true) by (vm_compute; reflexivity).
  assert (Hex : float_gt
                  (float_sub (Finite (time_at E (ticks w)))
                     match files w !! MODEM_RESET_TIMESTAMP_PATH with
                     | Some f =>
                         match read_float E (PyStr.strip (content f)) with
                         | Some x => x
                         | None => Finite (0 # 1)
                         end
                     | None => Finite (0 # 1)
                     end)
                  (Finite match MODEM_MINIMUM_RESET_INTERVAL E with
                          | Some x => x
                          | None => 300 # 1
                          end) = true) by (vm_compute; reflexivity).
  specialize (Hdue Hopen Hex). destruct Hdue as (_ & Hdue).
  assert (Hlock : lock_free E (acquires w) = true) by reflexivity.
  assert (Hexec : executable E RESET_MODEM = true) by reflexivity.
  rewrite Hlock, Hexec in Hdue. destruct Hdue as (Hout & Hl & Hf).
  split; [exact Hout|]. split; [rewrite Hl; reflexivity|].
  split; [rewrite Hf; vm_compute; reflexivity|].
  apply Hmono.
  - vm_compute. discriminate.
  - exists (1001 # 1). split; [vm_compute; reflexivity|vm_compute; discriminate].
Defined.

(** C2 as stated fails: the clock reads 1000, the state file holds 500,
    the interval is 300, so a reset is due; the lock times out; and the
    state file holds 1001 afterwards. *)
Lemma lock_timeout_keeps_timestamp_fails :
  ~ (forall (E : env) (w : world),
       reset_due E w = true -> lock_free E (acquires w) = false ->
       files (snd (reset_modem E w)) !! MODEM_RESET_TIMESTAMP_PATH
       = files w !! MODEM_RESET_TIMESTAMP_PATH).
Proof.
  intros H.
  set (E := Example.env_of (fun _ => Example.no_session) (fun _ => false)
              (fun n => match n with O => 1000 # 1 | _ => 1001 # 1 end)).
  set (w := Example.world_of {[ MODEM_RESET_TIMESTAMP_PATH := File "500.0" 420 ]}).
  assert (Hdue : reset_due E w = true) by (vm_compute; reflexivity).
  assert (Hlock : lock_free E (acquires w) = false) by (vm_compute; reflexivity).
  assert (Hafter : files (snd (reset_modem E w)) !! MODEM_RESET_TIMESTAMP_PATH
                   = Some (File "1001.0" 420)) by (vm_compute; reflexivity).
  assert (Hbefore : files w !! MODEM_RESET_TIMESTAMP_PATH = Some (File "500.0" 420))
    by (vm_compute; reflexivity).
  pose proof (H E w Hdue Hlock) as Hsame.
  rewrite Hafter, Hbefore in Hsame.
  injection Hsame as Hcontent. discriminate Hcontent.
Qed.

(** C2, amended: when a reset is due and the lock for the reset times
    out, [reset_modem] returns normally, the reset script is not
    launched, a warning is logged, and the state file is overwritten
    with the text of the time of the clock all the same; the next call
    finds a reset due again only when its reading of the clock exceeds
    the value that [float] reads back from that text (0 when it reads
    none) by more than the minimum interval. *)
Theorem lock_timeout_still_stamps (E : env) (w : world) :
  reset_due E w = true ->
  lock_free E (acquires w) = false ->
  let t := time_at E (S (ticks w)) in
  let warning := "perform_reset: unable to obtain lock for serial device" in
  exists w',
    reset_modem E w = (Ok tt, w') /\
    launches (trace w') = launches (trace w) /\
    count (is_log warning) (trace w') = S (count (is_log warning) (trace w)) /\
    files w' !! MODEM_RESET_TIMESTAMP_PATH = Some (File (py_str E t) (stamp_mode E w)) /\
    reset_due E w'
    = float_gt
        (float_sub (Finite (time_at E (ticks w')))
           match read_float E (PyStr.strip (py_str E t)) with
           | Some v => v
           | None => Finite (0 # 1)
           end)
        (Finite (minimum_reset_interval E)).
Proof.
  intros Hdue Hlock. cbn zeta.
  unfold reset_due in Hdue. apply andb_prop in Hdue as [Hopen Hex].
  pose proof (reset_modem_run E w) as Hrun. cbn zeta in Hrun.
  rewrite Hopen, Hex, Hlock in Hrun.
  eexists. split; [exact Hrun|]. cbn [trace files ticks].
  unfold launches. rewrite !count_app.
  split; [cbn; lia|]. split; [cbn; lia|].
  split; [apply lookup_insert_eq|].
  unfold reset_due, state_file_opens, elapsed_exceeds, last_reset. cbn [files ticks].
  rewrite lookup_insert_eq. reflexivity.
Qed.

Lemma lock_timeout_still_stamps_witness :
  let E := Example.env_of (fun _ => Example.no_session) (fun _ => false)
             (fun n => match n with O => 1000 # 1 | _ => 1001 # 1 end) in
  let w := Example.world_of {[ MODEM_RESET_TIMESTAMP_PATH := File "500.0" 420 ]} in
  exists w',
    reset_modem E w = (Ok tt, w') /\
    launches (trace w') = launches (trace w) /\
    files w' !! MODEM_RESET_TIMESTAMP_PATH = Some (File "1001.0" 420) /\
    reset_due E w' = false.
Proof.
  intros E w.
  assert (Hdue : reset_due E w = true) by (vm_compute; reflexivity).
  assert (Hlock : lock_free E (acquires w) = false) by (vm_compute; reflexivity).
  destruct (lock_timeout_still_stamps E w Hdue Hlock)
    as (w' & Hrun & Hl & _ & Hf & Hnext).
  exists w'. split; [exact Hrun|]. split; [exact Hl|].
  split; [rewrite Hf; vm_compute; reflexivity|].
  rewrite Hnext.
  assert (Ht : ticks (snd (reset_modem E w)) = 2%nat) by (vm_compute; reflexivity).
  rewrite Hrun in Ht. cbn [snd] in Ht.
  rewrite Ht. vm_compute. reflexivity.
Defined.

(** ** HealthEvaluator *)

Lemma dev_readline_ok d r w w' :
  dev_readline d w = (Ok r, w') -> w' = w.
Proof.
  unfold dev_readline. destruct (replies d) as [|[line|] rest]; run; congruence.
Qed.

(** A successful exchange yields a byte string and a status string. *)
Lemma query_ok_shape E cmd r w w' :
  query E cmd w = (Ok r, w') -> exists s o, r = (RStr s, OkStr o).
Proof.
  unfold query, bind.
  unfold serial_open. destruct (open_fails (serial_dev E (opens w))); [congruence|].
  unfold dev_write. destruct (write_fails (serial_dev E (opens w)));
    [unfold raise; congruence|unfold ret at 1].
  destruct (dev_readline (serial_dev E (opens w)) (tick_opens w))
    as [[r1|e1] w1]; [|congruence].
  destruct (Str.startswith "AT" (fst r1)).
  - destruct (dev_readline (snd r1) w1) as [[r2|e2] w2]; [|congruence].
    destruct (dev_readline (snd r2) w2) as [[r3|e3] w3]; [|congruence].
    unfold ret. intros [= <- _]. eauto.
  - unfold ret at 1.
    destruct (dev_readline (snd r1) w1) as [[r3|e3] w3]; [|congruence].
    unfold ret. intros [= <- _]. eauto.
Qed.

Lemma exchange_ok_shape E cmd r w w' :
  exchange E cmd w = (Ok r, w') -> exists s o, r = (RStr s, OkStr o).
Proof.
  unfold exchange, bind, acquire.
  destruct (lock_free E (acquires w)); [|congruence].
  destruct (query E cmd (tick_acquires w)) as [[r'|e'] w1] eqn:Hq; [|congruence].
  intros [= <- _]. eapply query_ok_shape; eassumption.
Qed.

(** When the status component is true, the reply is a byte string. *)
Lemma get_csq_truthy E w r ok w1 :
  get_csq E w = (Ok (r, ok), w1) -> truthy ok = true -> exists csq, r = RStr csq.
Proof.
  intros Hget Hok.
  pose proof (channel_handlers E ("AT+CSQ" ++ CRLF) (RInt 0) w) as H.
  fold (get_csq E) in H.
  destruct (exchange E ("AT+CSQ" ++ CRLF) w) as [[r'|e] w'] eqn:Hx.
  - apply exchange_ok_shape in Hx as (s & o & ->).
    rewrite Hget in H. injection H as -> _ _. eauto.
  - destruct H as [message H]. rewrite Hget in H. injection H as _ -> _.
    discriminate.
Qed.

Lemma get_creg_truthy E w r ok w1 :
  get_creg E w = (Ok (r, ok), w1) -> truthy ok = true -> exists creg, r = RStr creg.
Proof.
  intros Hget Hok.
  pose proof (channel_handlers E ("AT+CREG?" ++ CRLF) RNone w) as H.
  fold (get_creg E) in H.
  destruct (exchange E ("AT+CREG?" ++ CRLF) w) as [[r'|e] w'] eqn:Hx.
  - apply exchange_ok_shape in Hx as (s & o & ->).
    rewrite Hget in H. injection H as -> _ _. eauto.
  - destruct H as [message H]. rewrite Hget in H. injection H as _ -> _.
    discriminate.
Qed.

(** A call of [reset_modem] is counted once, whether it returns or
    raises; it raises nothing but the error of opening the state file
    and the error of starting the script. *)
Lemma reset_modem_counted E w :
  exists o w',
    reset_modem E w = (o, w') /\
    reset_calls (trace w') = S (reset_calls (trace w)) /\
    if reset_returns E w then o = Ok tt
    else o = Raise IOError \/ o = Raise OSError.
Proof.
  pose proof (reset_modem_run E w) as Hrun. cbn zeta in Hrun.
  unfold reset_returns, reset_calls.
  destruct (state_file_opens E w); cbn [andb].
  - destruct (elapsed_exceeds E w); cbn [andb negb].
    + destruct (lock_free E (acquires w)); cbn [andb negb].
      * destruct (executable E RESET_MODEM); cbn [negb];
          eexists _, _; (split; [exact Hrun|]); cbn [trace];
          rewrite !count_app; cbn; split; auto; lia.
      * eexists _, _. split; [exact Hrun|]. cbn [trace].
        rewrite !count_app. cbn. split; auto; lia.
    + eexists _, _. split; [exact Hrun|]. cbn [trace].
      rewrite !count_app. cbn. split; auto; lia.
  - eexists _, _. split; [exact Hrun|]. cbn [trace].
    rewrite !count_app. cbn. split; auto; lia.
Qed.

(** C7 as stated fails: the modem answers 99 and the reset script is
    not there; [reset_modem] raises, and the client gets the answer of
    the 500 handler, "Internal error", in place of the message of the
    claim. *)
Lemma weak_signal_message_fails :
  ~ (forall (E : env) (w w1 : world) (r : pyreply) (ok : pyok),
       get_csq E w = (Ok (r, ok), w1) ->
       truthy ok = true ->
       exists csq, r = RStr csq /\
         ((10 <=? parse_csq csq) && (parse_csq csq <? 99) = false ->
          fst (flask_dispatch (modem_status E) w)
          = (error_body "modem not connected or weak signal", 500))).
Proof.
  intros H.
  set (E := Example.env_with (fun _ => Example.csq_session "99") (fun _ => true)
              (fun _ => 1000 # 1) true false).
  set (w := Example.world_of ∅).
  assert (Hget : get_csq E w
                 = (Ok (RStr ("+CSQ: 99,0" ++ CRLF), OkStr "OK"), snd (get_csq E w)))
    by (vm_compute; reflexivity).
  destruct (H E w _ _ _ Hget eq_refl) as (csq & Hcsq & Hans).
  injection Hcsq as <-.
  assert (Hout : (10 <=? parse_csq ("+CSQ: 99,0" ++ CRLF))
                 && (parse_csq ("+CSQ: 99,0" ++ CRLF) <? 99) = false)
    by (vm_compute; reflexivity).
  specialize (Hans Hout).
  assert (Hreal : fst (flask_dispatch (modem_status E) w) = internal_error)
    by (vm_compute; reflexivity).
  rewrite Hreal in Hans. unfold internal_error in Hans.
  apply (f_equal (fun r : response => fst r !! "error")) in Hans.
  cbn [fst] in Hans. unfold error_body in Hans.
  rewrite !lookup_singleton_eq in Hans. discriminate Hans.
Qed.

(** C7, amended: when the signal-quality reply is available and its
    parsed value lies outside [10, 99), [reset_modem] is called once
    when the parsed value is 99 and not at all otherwise, and
    [modem_status] answers 500 with the message "modem not connected or
    weak signal" -- unless the call of [reset_modem] raises (the state
    file can be neither opened nor created, or the reset script cannot
    be started): the error then leaves the view, and the client gets
    the answer of the 500 handler, "Internal error". *)
Theorem weak_signal_response (E : env) (w w1 : world) (r : pyreply) (ok : pyok) :
  get_csq E w = (Ok (r, ok), w1) ->
  truthy ok = true ->
  exists csq, r = RStr csq /\
    ((10 <=? parse_csq csq) && (parse_csq csq <? 99) = false ->
     let logged := emit (Log "warning" "CSQ result: %s") w1 in
     exists w2,
       reset_calls (trace w2)
       = (reset_calls (trace w1) + if (parse_csq csq =? 99)%Z then 1 else 0)%nat /\
       if (parse_csq csq =? 99)%Z && negb (reset_returns E logged)
       then
         (exists e, (e = IOError \/ e = OSError) /\
                    modem_status E w = (Raise e, w2)) /\
         flask_dispatch (modem_status E) w = (internal_error, w2)
       else
         modem_status E w
         = (Ok (Some (error_body "modem not connected or weak signal", 500)), w2) /\
         flask_dispatch (modem_status E) w
         = ((error_body "modem not connected or weak signal", 500), w2)).
Proof.
  intros Hget Hok.
  destruct (get_csq_truthy _ _ _ _ _ Hget Hok) as [csq ->].
  exists csq. split; [reflexivity|]. intros Hout. cbn zeta.
  assert (Hview : modem_status E w
    = bind (if (parse_csq csq =? 99)%Z then reset_modem E else ret tt)
        (fun _ => ret (Some (error_body "modem not connected or weak signal", 500)))
        (emit (Log "warning" "CSQ result: %s") w1)).
  { unfold modem_status. unfold bind at 1. rewrite Hget. cbn [fst snd].
    rewrite Hok. cbn [negb]. unfold parse_reply.
    unfold bind at 1, ret at 1. rewrite Hout. cbn [negb].
    unfold bind at 1, log, modify. reflexivity. }
  unfold flask_dispatch. rewrite Hview.
  destruct (parse_csq csq =? 99); cbn [andb].
  - destruct (reset_modem_counted E (emit (Log "warning" "CSQ result: %s") w1))
      as (o & w2 & Hrun & Hcount & Hres).
    exists w2. split.
    { rewrite Hcount. cbn [trace emit]. unfold reset_calls. rewrite count_app. cbn. lia. }
    unfold bind. rewrite Hrun.
    destruct (reset_returns E (emit (Log "warning" "CSQ result: %s") w1)); cbn [negb].
    + subst o. split; reflexivity.
    + destruct Hres as [-> | ->]; (split; [eexists; split; [|reflexivity]; auto|reflexivity]).
  - exists (emit (Log "warning" "CSQ result: %s") w1). split.
    { cbn [trace emit]. unfold reset_calls. rewrite count_app. cbn. lia. }
    split; reflexivity.
Qed.

Lemma weak_signal_response_witness :
  let E := Example.env_of
             (fun n => match n with
                       | O => Example.csq_session "99"
                       | _ => Example.creg_session "1"
                       end)
             (fun _ => true) (fun _ => 1000 # 1) in
  exists w2,
    modem_status E (Example.world_of ∅)
    = (Ok (Some (error_body "modem not connected or weak signal", 500)), w2) /\
    reset_calls (trace w2) = 1%nat.
Proof.
  cbn zeta.
  set (E := Example.env_of
              (fun n => match n with
                        | O => Example.csq_session "99"
                        | _ => Example.creg_session "1"
                        end)
              (fun _ => true) (fun _ => 1000 # 1)).
  destruct (weak_signal_response E (Example.world_of ∅)
              (snd (get_csq E (Example.world_of ∅)))
              (RStr ("+CSQ: 99,0" ++ CRLF)) (OkStr "OK"))
    as (csq & Hcsq & H).
  - vm_compute. reflexivity.
  - reflexivity.
  - injection Hcsq as <-.
    destruct H as (w2 & Hcount & Hrun); [vm_compute; reflexivity|].
    assert (H99 : (parse_csq ("+CSQ: 99,0" ++ CRLF) =? 99) = true)
      by (vm_compute; reflexivity).
    assert (Hret : reset_returns E
                     (emit (Log "warning" "CSQ result: %s")
                        (snd (get_csq E (Example.world_of ∅)))) = true)
      by (vm_compute; reflexivity).
    rewrite H99 in Hrun, Hcount. rewrite Hret in Hrun. cbn [andb negb] in Hrun.
    destruct Hrun as [Hrun _].
    exists w2. split; [exact Hrun|].
    rewrite Hcount. vm_compute. reflexivity.
Defined.

Example no_match_does_not_reset :
  let E := Example.env_of (fun _ => Session false false [Some "ERROR"; Some "OK"])
             (fun _ => true) (fun _ => 1000 # 1) in
  let r := modem_status E (Example.world_of ∅) in
  fst r = Ok (Some (error_body "modem not connected or weak signal", 500)) /\
  reset_calls (trace (snd r)) = 0%nat.
Proof. vm_compute. auto. Qed.

(** The path through [modem_status] on which every check passes ends
    without a [return]. *)
Lemma all_clear_returns_none E w csq ok w1 creg ok' w2 :
  get_csq E w = (Ok (RStr csq, ok), w1) ->
  truthy ok = true ->
  10 <= parse_csq csq < 99 ->
  get_creg E w1 = (Ok (RStr creg, ok'), w2) ->
  truthy ok' = true ->
  parse_creg creg = 1 \/ parse_creg creg = 5 ->
  modem_status E w = (Ok None, w2).
Proof.
  intros Hcsq Hok Hrange Hcreg Hok' Hreg.
  unfold modem_status. unfold bind at 1. rewrite Hcsq. cbn [fst snd].
  rewrite Hok. cbn [negb]. unfold parse_reply. wsimpl.
  assert ((10 <=? parse_csq csq) && (parse_csq csq <? 99) = true) as ->.
  { apply andb_true_iff. split; [apply Z.leb_le|apply Z.ltb_lt]; lia. }
  cbn [negb]. rewrite Hcreg. cbn [fst snd]. rewrite Hok'. cbn [negb].
  assert ((parse_creg creg =? 1) || (parse_creg creg =? 5) = true) as ->.
  { apply orb_true_iff. destruct Hreg as [-> | ->]; auto. }
  reflexivity.
Qed.

(** C1, at a healthy modem (signal quality 20, registration 1, both
    exchanges answered with OK): the view returns no response at all --
    neither a status 200 nor a body -- and Flask answers with the handler
    for 500. *)
Theorem healthy_modem_gets_no_200 :
  let E := Example.env_of
             (fun n => match n with
                       | O => Example.csq_session "20"
                       | _ => Example.creg_session "1"
                       end)
             (fun _ => true) (fun _ => 1000 # 1) in
  let w := Example.world_of ∅ in
  fst (get_csq E w) = Ok (RStr ("+CSQ: 20,0" ++ CRLF), OkStr "OK") /\
  parse_csq ("+CSQ: 20,0" ++ CRLF) = 20 /\
  fst (get_creg E (snd (get_csq E w))) = Ok (RStr ("+CREG: 1,1" ++ CRLF), OkStr "OK") /\
  parse_creg ("+CREG: 1,1" ++ CRLF) = 1 /\
  fst (modem_status E w) = Ok None /\
  fst (flask_dispatch (modem_status E) w) = (error_body "Internal error", 500).
Proof. vm_compute. repeat split; reflexivity. Qed.

(** ** The response of [write_sms] *)

Example forbidden_is_in_the_map :
  let E := Env "/var/spool/sms/outgoing" "sms"
             (Some {[ "alice" := ["15550000000"] ]}) None "alice" 18
             Example.float Example.str (fun _ => true)
             (fun _ => Example.no_session) (fun _ => 0 # 1) Example.names
             (fun _ => true) (fun _ => true) in
  match fst (write_sms E (Sms ["15551234567"] hello) (Example.world_of ∅)) with
  | Ok result =>
      match result !! "message_id" with
      | Some (VDict d) => d !! "15551234567" = Some "Forbidden"
      | _ => False
      end
  | Raise _ => False
  end.
Proof. vm_compute. reflexivity. Qed.

(** A destination that fails validation and is called like a key of the
    response takes the place of that key; the next permitted
    destination then stops the whole request. *)
Example not_valid_key_clash :
  let E := Example.env_of (fun _ => Example.no_session) (fun _ => true)
             (fun _ => 0 # 1) in
  fst (write_sms E (Sms ["message_id"; "15551234567"] hello) (Example.world_of ∅))
  = Raise TypeError.
Proof. vm_compute. reflexivity. Qed.

(** C5, at the request [{mobiles: ["15551234567", "abc"], text: "hello"}]:
    the permitted destination is answered inside the [message_id] map
    with its generated id, while the marker of the destination that
    fails validation is stored under the key [abc] of the response
    itself; the [message_id] map has no entry for [abc]. *)
Theorem not_valid_is_outside_message_id :
  let E := Example.env_of (fun _ => Example.no_session) (fun _ => true)
             (fun _ => 0 # 1) in
  match fst (send_view E (Sms ["15551234567"; "abc"] hello) (Example.world_of ∅)) with
  | Ok (result, status) =>
      status = 201 /\
      result !! "abc" = Some (VStr "Not valid") /\
      result !! "parts_count" = Some (VInt 1) /\
      match result !! "message_id" with
      | Some (VDict d) =>
          d !! "15551234567" = Some "smsaaaaaa" /\ d !! "abc" = None
      | _ => False
      end
  | Raise _ => False
  end.
Proof. vm_compute. repeat split; reflexivity. Qed.

(** ** SpoolWriter *)

Lemma str_app_assoc (a b c : string) : (a ++ b) ++ c = a ++ (b ++ c).
Proof.
  induction a as [|x a IH]; [reflexivity|].
  change (String x ((a ++ b) ++ c) = String x (a ++ (b ++ c))).
  f_equal. exact IH.
Qed.

Lemma str_length_app (a b : string) :
  String.length (a ++ b) = (String.length a + String.length b)%nat.
Proof.
  induction a as [|x a IH]; [reflexivity|].
  change (S (String.length (a ++ b)) = S (String.length a + String.length b)).
  f_equal. exact IH.
Qed.

(** Writing at the end of a file appends. *)
Lemma f_write_append p c m data w :
  files w !! p = Some (File c m) ->
  f_write (Handle p (String.length c)) data w
  = (Ok (Handle p (String.length (c ++ data))),
     emit (Wrote p data) (set_files (<[p := File (c ++ data) m]> (files w)) w)).
Proof.
  intros Hf. unfold f_write. cbn [h_path h_pos]. rewrite Hf. cbn [content mode].
  rewrite take_all, drop_all by lia.
  rewrite app_empty_r, str_length_app. reflexivity.
Qed.

Lemma startswith_refl s : Str.startswith s s = true.
Proof.
  induction s as [|c s IH]; [reflexivity|].
  cbn [Str.startswith]. rewrite Ascii.eqb_refl, IH. reflexivity.
Qed.

Lemma occurs_suffix a c sep : occurs (String c sep) (a ++ String c sep) = true.
Proof.
  induction a as [|x a IH].
  - change (Str.startswith (String c sep) (String c sep)
            || occurs (String c sep) sep = true).
    rewrite startswith_refl. reflexivity.
  - change (Str.startswith (String c sep) (String x (a ++ String c sep))
            || occurs (String c sep) (a ++ String c sep) = true).
    rewrite IH. apply orb_true_r.
Qed.

Lemma before_first_shorter sep s :
  occurs sep s = true ->
  (String.length (PyStr.before_first sep s) < String.length s)%nat.
Proof.
  induction s as [|c s IH]; [discriminate|].
  cbn [occurs PyStr.before_first].
  destruct (Str.startswith sep (String c s)); cbn [orb String.length].
  - lia.
  - intros H. specialize (IH H). lia.
Qed.

(** A joined path ends like its file part. *)
Lemma path_join_suffix dir file : exists a, PyStr.path_join dir file = a ++ file.
Proof.
  unfold PyStr.path_join.
  destruct (Str.startswith "/" file); [exists ""; reflexivity|].
  destruct (String.eqb dir "" || PyStr.endswith_slash dir).
  - exists dir. reflexivity.
  - exists (dir ++ "/"). now rewrite str_app_assoc.
Qed.

(** The final name differs from the temporary name. *)
Lemma final_name_differs dir pre name :
  let lockp := PyStr.path_join dir (pre ++ name ++ ".LOCK") in
  PyStr.before_first ".LOCK" lockp <> lockp.
Proof.
  cbn zeta. destruct (path_join_suffix dir (pre ++ name ++ ".LOCK")) as [a Ha].
  rewrite Ha. rewrite <- !str_app_assoc.
  intros Heq.
  pose proof (before_first_shorter ".LOCK" (((a ++ pre) ++ name) ++ ".LOCK")
                (occurs_suffix _ _ _)) as Hlt.
  rewrite Heq in Hlt. lia.
Qed.

(** What a successful [mkstemp] did: the name it settled on was free. *)
Lemma mkstemp_inner_ok E fuel dir pre suf w p w' :
  mkstemp_inner E fuel dir pre suf w = (Ok p, w') ->
  exists k,
    (draws w <= k)%nat /\
    p = PyStr.path_join dir (pre ++ rand_name E k ++ suf) /\
    files w !! p = None /\
    w' = World (<[p := File "" 384]> (files w)) (acquires w) (opens w) (ticks w)
           (S k) (trace w ++ [Created p]).
Proof.
  revert w. induction fuel as [|fuel IH]; intros w; cbn [mkstemp_inner].
  - discriminate.
  - destruct w as [fs na no nt nd tr]. wsimpl.
    destruct (fs !! PyStr.path_join dir (pre ++ rand_name E nd ++ suf)) eqn:Hfree.
    + intros H. apply IH in H as (k & Hk & Hp & Hnone & Hw). cbn in *.
      exists k. split; [lia|]. auto.
    + intros [= <- <-]. exists nd. cbn. auto.
Qed.

Lemma open_w_existing E p f w :
  files w !! p = Some f ->
  open_w E p w
  = (Ok (Handle p 0), set_files (<[p := File "" (mode f)]> (files w)) w).
Proof. intros H. unfold open_w. now rewrite H. Qed.

Lemma os_rename_ok src dst f w :
  files w !! src = Some f ->
  String.eqb dst "" || PyStr.endswith_slash dst = false ->
  os_rename src dst w
  = (Ok tt, emit (Renamed src dst)
              (set_files (<[dst := f]> (delete src (files w))) w)).
Proof. intros H Hd. unfold os_rename. now rewrite H, Hd. Qed.

Lemma os_chmod_ok p bits f w :
  files w !! p = Some f ->
  os_chmod p bits w
  = (Ok tt, emit (Chmod p bits)
              (set_files (<[p := File (content f) bits]> (files w)) w)).
Proof. intros H. unfold os_chmod. now rewrite H. Qed.

(** C9: a spool write that succeeds drew a name that was free in the
    queue directory, created the temporary file [<prefix><name>.LOCK]
    under it, wrote the sender line, the alphabet line (exactly when
    the text is encoded in UCS2), the destination line, an empty line
    and the encoded text to it, then renamed it to the name without
    [.LOCK] and set the mode of that file to 0666 (438); the temporary
    name is gone, and the [message_id] recorded for the destination is
    the base name of the final file. *)
Theorem spool_write (E : env) (txt : text) (mobile : string)
  (l l' : locals) (w w' : world) :
  (ucs_field l = true -> forallb is_7bit txt = false) ->
  spool E txt mobile l w = (Ok l', w') ->
  exists name,
    let lockp := PyStr.path_join (OUTGOING E) (PREFIX E ++ name ++ ".LOCK") in
    let final := PyStr.before_first ".LOCK" lockp in
    let body := match encode_us_ascii txt with
                | Some msg => msg
                | None => encode_utf_16_be txt
                end in
    files w !! lockp = None /\
    final <> lockp /\
    trace w'
    = (trace w ++
       [Created lockp; Wrote lockp ("From: " ++ username E ++ LF)] ++
       (if forallb is_7bit txt then [] else [Wrote lockp ("Alphabet: UCS" ++ LF)]) ++
       [Wrote lockp ("To: " ++ mobile ++ LF ++ LF); Wrote lockp body;
        Renamed lockp final; Chmod final 438;
        Log "info" "Message from %s to %s placed to the spooler %s"])%list /\
    files w' = <[final := File (spool_file E txt mobile) 438]> (files w) /\
    files w' !! lockp = None /\
    chosen_alphabet (ucs_field l')
    = (if forallb is_7bit txt then DEFAULT else UCS2) /\
    exists d,
      result l !! "message_id" = Some (VDict d) /\
      result l'
      = <["message_id" := VDict (<[mobile := PyStr.last_component final]> d)]>
          (result l).
Proof.
  intros Hucs Hrun. unfold spool, mkstemp in Hrun.
  unfold bind at 1 in Hrun.
  destruct (mkstemp_inner E TMP_MAX (OUTGOING E) (PREFIX E) ".LOCK" w)
    as [[lockp|e] w1] eqn:Hmk; [|discriminate].
  apply mkstemp_inner_ok in Hmk as (k & _ & Hp & Hfree & Hw1).
  exists (rand_name E k). cbn zeta. rewrite <- Hp.
  pose proof (final_name_differs (OUTGOING E) (PREFIX E) (rand_name E k)) as Hne.
  cbn zeta in Hne. rewrite <- Hp in Hne.
  set (final := PyStr.before_first ".LOCK" lockp) in *.
  subst w1. destruct w as [fs na no nt nd tr].
  cbn [files acquires opens ticks draws trace] in *.
  unfold encode_block, encode_us_ascii in Hrun.
  (* open *)
  erewrite (bind_ok _ _ _ _ _ (open_w_existing E lockp (File "" 384) _ (lookup_insert_eq _ _ _))) in Hrun.
  unfold set_files in Hrun. cbn [files acquires opens ticks draws trace mode] in Hrun.
  rewrite insert_insert_eq in Hrun.
  change (Handle lockp 0) with (Handle lockp (String.length "")) in Hrun.
  erewrite (bind_ok _ _ _ _ _ (f_write_append lockp "" 384 _ _ (lookup_insert_eq _ _ _))) in Hrun.
  unfold set_files, emit in Hrun. cbn [files acquires opens ticks draws trace mode] in Hrun.
  rewrite insert_insert_eq in Hrun.
  (* the alphabet line *)
  assert (Hucs' : ucs_field l = negb (forallb is_7bit txt) \/ forallb is_7bit txt = false).
  { destruct (forallb is_7bit txt); [|now right].
    left. destruct (ucs_field l); [|reflexivity]. now specialize (Hucs eq_refl). }
  set (from := "" ++ "From: " ++ username E ++ LF) in *.
  assert (Hwrite2 : exists c2 alpha,
    c2 = from ++ alpha /\
    alpha = (if forallb is_7bit txt then "" else "Alphabet: UCS" ++ LF) /\
    (bind (f_write_unicode (Handle lockp (String.length c2)) ("To: " ++ mobile ++ LF ++ LF))
       (fun f0 =>
          bind (f_write f0 (match encode_us_ascii txt with
                            | Some msg => msg
                            | None => encode_utf_16_be txt
                            end))
            (fun _ =>
               bind (os_rename lockp final)
                 (fun _ =>
                    bind (os_chmod final 438)
                      (fun _ =>
                         bind (log "info" "Message from %s to %s placed to the spooler %s")
                           (fun _ =>
                              bind (set_message_id mobile (PyStr.last_component final) (result l))
                                (fun result =>
                                   ret (Locals result
                                          (snd (fst (encode_block txt (parts_count l) (ucs_field l))))
                                          (snd (encode_block txt (parts_count l) (ucs_field l)))))))))))
      (World (<[lockp := File c2 384]> fs) na no nt (S k)
         ((tr ++ [Created lockp; Wrote lockp ("From: " ++ username E ++ LF)])
          ++ (if forallb is_7bit txt then [] else [Wrote lockp ("Alphabet: UCS" ++ LF)])))
    = (Ok l', w')).
  { unfold encode_block, encode_us_ascii.
    destruct (forallb is_7bit txt) eqn:H7.
    - destruct Hucs' as [Hu|]; [|discriminate]. rewrite Hu in Hrun. cbn [negb fst snd] in Hrun.
      exists from, "". split; [now rewrite app_empty_r|]. split; [reflexivity|].
      unfold bind at 1 in Hrun. unfold ret at 1 in Hrun.
      rewrite Hu. cbn [negb fst snd]. rewrite app_nil_r.
      rewrite <- app_assoc in Hrun. exact Hrun.
    - cbn [fst snd] in Hrun.
      erewrite (bind_ok _ _ _ _ _ (f_write_append lockp from 384 _ _ (lookup_insert_eq _ _ _))) in Hrun.
      unfold set_files, emit in Hrun.
      cbn [files acquires opens ticks draws trace mode] in Hrun.
      rewrite insert_insert_eq in Hrun.
      exists (from ++ "Alphabet: UCS" ++ LF), ("Alphabet: UCS" ++ LF).
      split; [reflexivity|]. split; [reflexivity|].
      cbn [fst snd]. rewrite <- !app_assoc in Hrun. rewrite <- !app_assoc. exact Hrun. }
  clear Hrun. destruct Hwrite2 as (c2 & alpha & Hc2 & Halpha & Hrun).
  (* the destination line *)
  unfold f_write_unicode in Hrun.
  destruct (Str.all PyStr.is_ascii_char ("To: " ++ mobile ++ LF ++ LF));
    [|discriminate Hrun].
  erewrite (bind_ok _ _ _ _ _ (f_write_append lockp c2 384 _ _ (lookup_insert_eq _ _ _))) in Hrun.
  unfold set_files, emit in Hrun.
  cbn [files acquires opens ticks draws trace mode] in Hrun.
  rewrite insert_insert_eq in Hrun.
  (* the body *)
  erewrite (bind_ok _ _ _ _ _ (f_write_append lockp _ 384 _ _ (lookup_insert_eq _ _ _))) in Hrun.
  unfold set_files, emit in Hrun.
  cbn [files acquires opens ticks draws trace mode] in Hrun.
  rewrite insert_insert_eq in Hrun.
  (* rename and chmod *)
  destruct (String.eqb final "" || PyStr.endswith_slash final) eqn:Hd.
  { unfold bind at 1, os_rename in Hrun. cbn [files] in Hrun.
    rewrite lookup_insert_eq, Hd in Hrun. discriminate Hrun. }
  erewrite (bind_ok _ _ _ _ _ (os_rename_ok lockp final _ _ (lookup_insert_eq _ _ _) Hd)) in Hrun.
  unfold set_files, emit in Hrun.
  cbn [files acquires opens ticks draws trace mode] in Hrun.
  rewrite delete_insert_id in Hrun by exact Hfree.
  erewrite (bind_ok _ _ _ _ _ (os_chmod_ok final 438 _ _ (lookup_insert_eq _ _ _))) in Hrun.
  unfold set_files, emit in Hrun.
  cbn [files acquires opens ticks draws trace mode content] in Hrun.
  rewrite insert_insert_eq in Hrun.
  unfold bind at 1, log, modify, emit in Hrun.
  cbn [files acquires opens ticks draws trace] in Hrun.
  (* the entry of the response *)
  unfold bind at 1, set_message_id in Hrun.
  destruct (result l !! "message_id") as [[s|t|z|d]|] eqn:Hres;
    try discriminate Hrun.
  unfold ret in Hrun. injection Hrun as <- <-.
  cbn [files trace result ucs_field].
  assert (Hcontent :
    (c2 ++ "To: " ++ mobile ++ LF ++ LF) ++
    match encode_us_ascii txt with
    | Some msg => msg
    | None => encode_utf_16_be txt
    end = spool_file E txt mobile).
  { unfold spool_file. rewrite Hc2, <- Halpha. unfold from.
    change ("" ++ "From: " ++ username E ++ LF) with ("From: " ++ username E ++ LF).
    rewrite !str_app_assoc. reflexivity. }
  rewrite Hcontent.
  split; [exact Hfree|]. split; [exact Hne|].
  split; [now rewrite <- !app_assoc|].
  split; [reflexivity|].
  split; [rewrite lookup_insert_ne by exact Hne; exact Hfree|].
  split.
  - unfold encode_block, encode_us_ascii.
    destruct (forallb is_7bit txt) eqn:H7; cbn [snd]; [|reflexivity].
    destruct Hucs' as [-> |]; [reflexivity|discriminate].
  - exists d. split; reflexivity.
Qed.

Lemma spool_write_witness :
  let E := Example.env_of (fun _ => Example.no_session) (fun _ => true)
             (fun _ => 0 # 1) in
  let l0 := Locals {[ "message_id" := VDict ∅ ]} 1 false in
  let final := "/var/spool/sms/outgoing/smsaaaaaa" in
  exists l' w',
    spool E hello "15551234567" l0 (Example.world_of ∅) = (Ok l', w') /\
    files w' = {[ final := File (spool_file E hello "15551234567") 438 ]} /\
    files w' !! (final ++ ".LOCK") = None.
Proof.
  intros E l0 final.
  assert (Hrun : exists l' w',
             spool E hello "15551234567" l0 (Example.world_of ∅) = (Ok l', w'))
    by (vm_compute; eexists _, _; reflexivity).
  destruct Hrun as (l' & w' & Hrun).
  destruct (spool_write E hello "15551234567" l0 l' (Example.world_of ∅) w')
    as (name & Hfree & Hne & Htrace & Hfiles & Hgone & _).
  - intros Hfalse. discriminate Hfalse.
  - exact Hrun.
  - exists l', w'. split; [exact Hrun|].
    assert (Hw : w' = snd (spool E hello "15551234567" l0 (Example.world_of ∅)))
      by (rewrite Hrun; reflexivity).
    split; rewrite Hw; vm_compute; reflexivity.
Defined.

(** ** More on the parsers *)

Lemma int_digit c : Str.int (String c "") = Str.digit_val c.
Proof. unfold Str.int. cbn [Str.int_acc]. lia. Qed.

Lemma int_two c1 c2 :
  Str.int (String c1 (String c2 "")) = 10 * Str.digit_val c1 + Str.digit_val c2.
Proof. unfold Str.int. cbn [Str.int_acc]. lia. Qed.

Lemma comma_not_digit : Str.is_digit "," = false.
Proof. reflexivity. Qed.

(** A pattern that starts with literals consumes them. *)
Lemma re_match_lits p r s : re_match (lits p ++ r)%list (p ++ s) = re_match r s.
Proof.
  induction p as [|c p IH]; [reflexivity|].
  change (re_match (Lit c :: (lits p ++ r)%list) (String c (p ++ s)) = re_match r s).
  cbn [re_match]. rewrite Ascii.eqb_refl. exact IH.
Qed.

Lemma re_match_lits_only p r s gs :
  re_match (lits p ++ r)%list s = Some gs -> Str.startswith p s = true.
Proof.
  revert s. induction p as [|c p IH]; intros s; [reflexivity|].
  change (re_match (Lit c :: (lits p ++ r)%list) s = Some gs ->
          Str.startswith (String c p) s = true).
  cbn [re_match Str.startswith]. destruct s as [|d s]; [discriminate|].
  destruct (Ascii.eqb c d); [|discriminate].
  intros H. now rewrite (IH _ H).
Qed.

(** X1: a signal-quality reply in the form the modem sends it, with one
    or two digits, parses to the number it carries, whatever follows
    the comma. *)
Theorem parse_csq_reply (d1 d2 : ascii) (rest : string) :
  Str.is_digit d1 = true -> Str.is_digit d2 = true ->
  parse_csq ("+CSQ: " ++ String d1 (String "," rest)) = Str.digit_val d1 /\
  parse_csq ("+CSQ: " ++ String d1 (String d2 (String "," rest)))
  = 10 * Str.digit_val d1 + Str.digit_val d2.
Proof.
  intros H1 H2. unfold parse_csq, CSQ_REGEX. rewrite !re_match_lits.
  cbn [re_match Str.digit_run]. rewrite H1, H2, comma_not_digit.
  cbn [Nat.leb Str.drop Str.take group1 nth].
  change (Ascii.eqb "," ",") with true. cbn [group1 nth].
  split; [apply int_digit|apply int_two].
Qed.

Lemma parse_csq_reply_witness :
  parse_csq "+CSQ: 7,99" = 7 /\ parse_csq "+CSQ: 73,99" = 73.
Proof. exact (parse_csq_reply "7" "3" "99" eq_refl eq_refl). Defined.

(** X2: the registration parser returns the first number of the reply,
    the one before the comma; the number after the comma only has to be
    there. *)
Theorem parse_creg_first_number (n stat : ascii) (rest : string) :
  Str.is_digit n = true -> Str.is_digit stat = true ->
  parse_creg ("+CREG: " ++ String n (String "," (String stat rest)))
  = Str.digit_val n.
Proof.
  intros Hn Hs. unfold parse_creg, CREG_REGEX. rewrite re_match_lits.
  cbn [re_match Str.digit_run]. rewrite Hn.
  cbn [Nat.leb Str.drop Str.take group1 nth].
  change (Ascii.eqb "," ",") with true. rewrite Hs. cbn [group1 nth].
  apply int_digit.
Qed.

Lemma parse_creg_first_number_witness : parse_creg "+CREG: 0,5" = 0.
Proof. exact (parse_creg_first_number "0" "5" "" eq_refl eq_refl). Defined.

(** X3: both parsers match at the very start of the reply only: a reply
    that does not begin with the tag parses to the sentinel. *)
Theorem parsers_are_anchored (s : string) :
  (Str.startswith "+CSQ: " s = false -> parse_csq s = 0) /\
  (Str.startswith "+CREG: " s = false -> parse_creg s = -1).
Proof.
  split; intros Hs.
  - unfold parse_csq. destruct (re_match CSQ_REGEX s) as [gs|] eqn:Hm; [|reflexivity].
    unfold CSQ_REGEX in Hm. apply re_match_lits_only in Hm. congruence.
  - unfold parse_creg. destruct (re_match CREG_REGEX s) as [gs|] eqn:Hm; [|reflexivity].
    unfold CREG_REGEX in Hm. apply re_match_lits_only in Hm. congruence.
Qed.

Lemma parsers_are_anchored_witness :
  parse_csq (CRLF ++ "+CSQ: 20,0") = 0 /\ parse_creg " +CREG: 0,1" = -1.
Proof.
  split.
  - apply (proj1 (parsers_are_anchored (CRLF ++ "+CSQ: 20,0"))). reflexivity.
  - apply (proj2 (parsers_are_anchored " +CREG: 0,1")). reflexivity.
Defined.

(** ** More on the channel and the health check *)

Lemma query_world E cmd w o w' : query E cmd w = (o, w') -> w' = tick_opens w.
Proof.
  unfold query, bind.
  unfold serial_open. destruct (open_fails (serial_dev E (opens w))); [congruence|].
  unfold dev_write. destruct (write_fails (serial_dev E (opens w)));
    [unfold raise; congruence|unfold ret at 1].
  destruct (dev_readline (serial_dev E (opens w)) (tick_opens w))
    as [[r1|e1] w1] eqn:H1.
  2:{ unfold dev_readline in H1.
      destruct (replies (serial_dev E (opens w))) as [|[line|] rest];
        unfold ret, raise in H1; congruence. }
  apply dev_readline_ok in H1. subst w1.
  destruct (Str.startswith "AT" (fst r1)).
  - destruct (dev_readline (snd r1) (tick_opens w)) as [[r2|e2] w2] eqn:H2.
    2:{ unfold dev_readline in H2.
        destruct (replies (snd r1)) as [|[line|] rest];
          unfold ret, raise in H2; congruence. }
    apply dev_readline_ok in H2. subst w2.
    destruct (dev_readline (snd r2) (tick_opens w)) as [[r3|e3] w3] eqn:H3.
    2:{ unfold dev_readline in H3.
        destruct (replies (snd r2)) as [|[line|] rest];
          unfold ret, raise in H3; congruence. }
    apply dev_readline_ok in H3. subst w3. unfold ret. congruence.
  - unfold ret at 1.
    destruct (dev_readline (snd r1) (tick_opens w)) as [[r3|e3] w3] eqn:H3.
    2:{ unfold dev_readline in H3.
        destruct (replies (snd r1)) as [|[line|] rest];
          unfold ret, raise in H3; congruence. }
    apply dev_readline_ok in H3. subst w3. unfold ret. congruence.
Qed.

(** What a channel function leaves in the world: one more acquisition
    of the lock, one more session when the lock was granted, and at
    most a warning in the log. *)
Lemma channel_world E cmd sentinel w r w' :
  try_except
    (acquire E ;;;
     try_except (query E cmd) SerialException
       (log "warning" "unable to read from serial device: %s" ;;;
        ret (sentinel, OkFalse)))
    LockTimeout
    (log "warning" "couldn't obtain lock for serial device: %s" ;;;
     ret (sentinel, OkFalse)) w = (r, w') ->
  files w' = files w /\ ticks w' = ticks w /\ draws w' = draws w /\
  acquires w' = S (acquires w) /\
  opens w' = (opens w + if lock_free E (acquires w) then 1 else 0)%nat /\
  count is_launch (trace w') = count is_launch (trace w) /\
  count is_reset_call (trace w') = count is_reset_call (trace w).
Proof.
  destruct w as [fs na no nt nd tr].
  unfold acquire. wsimpl. destruct (lock_free E na).
  - destruct (query E cmd (World fs (S na) no nt nd tr)) as [[a|e] w1] eqn:Hq;
      apply query_world in Hq; subst w1.
    + intros [= <- <-]. unfold tick_opens. cbn [files ticks draws acquires opens trace].
      repeat split; try reflexivity; lia.
    + destruct e; cbn [exn_eqb]; intros [= <- <-]; unfold tick_opens;
        cbn [files ticks draws acquires opens trace];
        rewrite ?count_app; repeat split; try reflexivity; try (cbn; lia).
  - intros [= <- <-]. cbn [files ticks draws acquires opens trace].
    rewrite !count_app. repeat split; try reflexivity; try (cbn; lia).
Qed.

(** X4: neither channel function touches a file, the clock or the
    random names, launches the reset script or calls [reset_modem];
    each takes the lock exactly once and opens the device only when it
    holds the lock. *)
Theorem channel_frame (E : env) (w : world) :
  let effect (w' : world) :=
    files w' = files w /\ ticks w' = ticks w /\ draws w' = draws w /\
    acquires w' = S (acquires w) /\
    opens w' = (opens w + if lock_free E (acquires w) then 1 else 0)%nat /\
    launches (trace w') = launches (trace w) /\
    reset_calls (trace w') = reset_calls (trace w) in
  effect (snd (get_csq E w)) /\ effect (snd (get_creg E w)).
Proof.
  cbn zeta. split.
  - destruct (get_csq E w) as [r w'] eqn:H. apply channel_world in H. exact H.
  - destruct (get_creg E w) as [r w'] eqn:H. apply channel_world in H. exact H.
Qed.

(** X5: with the lock and a device that answers three lines, the reply
    is the first line, or the second when the first is the echo of the
    command (it starts with [AT]); the status is the next line,
    stripped. *)
Theorem channel_reply (E : env) (w : world) (a b c : string)
  (rest : list (option string)) :
  lock_free E (acquires w) = true ->
  serial_dev E (opens w) = Session false false (Some a :: Some b :: Some c :: rest) ->
  let answer :=
    if Str.startswith "AT" a then (RStr b, OkStr (PyStr.strip c))
    else (RStr a, OkStr (PyStr.strip b)) in
  fst (get_csq E w) = Ok answer /\ fst (get_creg E w) = Ok answer.
Proof.
  intros Hlock Hdev. cbn zeta.
  destruct w as [fs na no nt nd tr]. cbn [acquires opens] in *.
  unfold get_csq, get_creg, query, acquire, serial_open, dev_write, dev_readline.
  wsimpl. rewrite Hlock. wsimpl. cbn [opens]. rewrite Hdev.
  cbn [open_fails write_fails replies].
  wsimpl. destruct (Str.startswith "AT" a); wsimpl; cbn [replies]; wsimpl; auto.
Qed.

Lemma channel_reply_witness :
  let E := Example.env_of (fun _ => Example.csq_session "20") (fun _ => true)
             (fun _ => 0 # 1) in
  fst (get_csq E (Example.world_of ∅))
  = Ok (RStr ("+CSQ: 20,0" ++ CRLF), OkStr "OK").
Proof.
  intros E.
  exact (proj1 (channel_reply E (Example.world_of ∅) ("AT+CSQ" ++ CRLF)
                  ("+CSQ: 20,0" ++ CRLF) ("OK" ++ CRLF) [] eq_refl eq_refl)).
Defined.

(** X6: [modem_status] never answers 200.  It returns nothing, or one
    of its three errors with the status 500, or lets the [IOError] or
    the [OSError] of [reset_modem] pass; through Flask the client gets
    the status 500 in every case. *)
Theorem modem_status_outcomes (E : env) (w : world) :
  let out := fst (modem_status E w) in
  (out = Ok None \/
   (exists message,
      (message = "modem not available" \/
       message = "modem not connected or weak signal" \/
       message = "registration problem") /\
      out = Ok (Some (error_body message, 500))) \/
   out = Raise IOError \/ out = Raise OSError) /\
  snd (fst (flask_dispatch (modem_status E) w)) = 500.
Proof.
  cbn zeta.
  assert (Hcases :
    fst (modem_status E w) = Ok None \/
    (exists message,
       (message = "modem not available" \/
        message = "modem not connected or weak signal" \/
        message = "registration problem") /\
       fst (modem_status E w) = Ok (Some (error_body message, 500))) \/
    fst (modem_status E w) = Raise IOError \/
    fst (modem_status E w) = Raise OSError).
  { destruct (modem_status E w) as [o w'] eqn:Hm. cbn [fst]. revert Hm.
    unfold modem_status. unfold bind at 1.
    pose proof (channel_handlers E ("AT+CSQ" ++ CRLF) (RInt 0) w) as Hh.
    fold (get_csq E) in Hh.
    assert (Hcsq : exists r ok w1, get_csq E w = (Ok (r, ok), w1)).
    { destruct (exchange E ("AT+CSQ" ++ CRLF) w) as [[[r ok]|e] w1].
      - eauto.
      - destruct Hh as [m Hh]. eauto. }
    clear Hh. destruct Hcsq as (r & ok & w1 & Hcsq). rewrite Hcsq. cbn [fst snd].
    destruct (truthy ok) eqn:Hok; cbn [negb].
    2:{ unfold ret. intros [= <- <-]. right. left.
        exists "modem not available". split; [auto|reflexivity]. }
    destruct (get_csq_truthy _ _ _ _ _ Hcsq Hok) as [csq ->].
    unfold parse_reply. unfold bind at 1, ret at 1.
    destruct ((10 <=? parse_csq csq) && (parse_csq csq <? 99)); cbn [negb].
    2:{ unfold bind at 1, log, modify.
        destruct (parse_csq csq =? 99).
        - destruct (reset_modem_counted E (emit (Log "warning" "CSQ result: %s") w1))
            as (o' & w2 & Hrun & _ & Hres).
          unfold bind at 1. rewrite Hrun.
          destruct (reset_returns E (emit (Log "warning" "CSQ result: %s") w1)).
          + subst o'. unfold bind, ret. intros [= <- <-]. right. left.
            exists "modem not connected or weak signal". split; [auto|reflexivity].
          + destruct Hres as [-> | ->]; intros [= <- <-]; auto.
        - unfold bind, ret. intros [= <- <-]. right. left.
          exists "modem not connected or weak signal". split; [auto|reflexivity]. }
    unfold bind at 1.
    pose proof (channel_handlers E ("AT+CREG?" ++ CRLF) RNone w1) as Hh.
    fold (get_creg E) in Hh.
    assert (Hcreg : exists r ok w2, get_creg E w1 = (Ok (r, ok), w2)).
    { destruct (exchange E ("AT+CREG?" ++ CRLF) w1) as [[[r ok']|e] w2].
      - eauto.
      - destruct Hh as [m Hh]. eauto. }
    clear Hh. destruct Hcreg as (r & ok' & w2 & Hcreg). rewrite Hcreg. cbn [fst snd].
    destruct (truthy ok') eqn:Hok'; cbn [negb].
    2:{ unfold ret. intros [= <- <-]. right. left.
        exists "modem not available". split; [auto|reflexivity]. }
    destruct (get_creg_truthy _ _ _ _ _ Hcreg Hok') as [creg ->].
    unfold bind at 1, ret at 1.
    destruct ((parse_creg creg =? 1) || (parse_creg creg =? 5)); cbn [negb];
      unfold ret; intros [= <- <-].
    - left. reflexivity.
    - right. left. exists "registration problem". split; [auto|reflexivity]. }
  split; [exact Hcases|].
  unfold flask_dispatch.
  destruct (modem_status E w) as [o w']. cbn [fst] in Hcases.
  destruct Hcases as [-> | [(m & _ & ->) | [-> | ->]]]; reflexivity.
Qed.

(** X7: a modem that is there but stays silent -- every read runs
    into its timeout -- is reported as not available; nothing is reset
    and no file is touched. *)
Theorem silent_modem (E : env) (w : world) :
  lock_free E (acquires w) = true ->
  serial_dev E (opens w) = Session false false [] ->
  exists w',
    modem_status E w = (Ok (Some (error_body "modem not available", 500)), w') /\
    files w' = files w /\ reset_calls (trace w') = reset_calls (trace w).
Proof.
  intros Hlock Hdev. destruct w as [fs na no nt nd tr]. cbn [acquires opens] in *.
  unfold modem_status, get_csq, query, acquire, serial_open, dev_write, dev_readline.
  wsimpl. rewrite Hlock. wsimpl. cbn [opens]. rewrite Hdev.
  cbn [open_fails write_fails replies].
  wsimpl. cbn [Str.startswith]. wsimpl. cbn [replies PyStr.strip PyStr.lstrip PyStr.rstrip truthy negb].
  wsimpl.
  eexists. split; [reflexivity|]. cbn [files trace]. unfold reset_calls.
  split; [reflexivity|reflexivity].
Qed.

Lemma silent_modem_witness :
  let E := Example.env_of (fun _ => Session false false []) (fun _ => true)
             (fun _ => 0 # 1) in
  exists w',
    modem_status E (Example.world_of ∅)
    = (Ok (Some (error_body "modem not available", 500)), w') /\
    files w' = files (Example.world_of ∅) /\
    reset_calls (trace w') = reset_calls (trace (Example.world_of ∅)).
Proof.
  intros E. exact (silent_modem E (Example.world_of ∅) eq_refl eq_refl).
Defined.

(** ** More on the reset governor *)

(** X8: whatever [reset_modem] does -- return or raise --, it changes no
    file but the state file, does not open the serial device and draws
    no random name.  It raises [IOError] exactly when the state file
    can be neither opened nor created, and [OSError] exactly when the
    reset is due, the lock is granted and the script cannot be started;
    the script is launched once when the reset is due, the lock is
    granted and the script can be started, and not otherwise. *)
Theorem reset_modem_frame (E : env) (w : world) :
  let out := fst (reset_modem E w) in
  let w' := snd (reset_modem E w) in
  (forall p, p <> MODEM_RESET_TIMESTAMP_PATH -> files w' !! p = files w !! p) /\
  opens w' = opens w /\ draws w' = draws w /\
  launches (trace w')
  = (launches (trace w)
     + if reset_due E w && lock_free E (acquires w) && executable E RESET_MODEM
       then 1 else 0)%nat /\
  out = if state_file_opens E w
        then if reset_due E w && lock_free E (acquires w)
                && negb (executable E RESET_MODEM)
             then Raise OSError
             else Ok tt
        else Raise IOError.
Proof.
  cbn zeta. pose proof (reset_modem_run E w) as Hrun. cbn zeta in Hrun.
  unfold launches, reset_due.
  assert (Hopened : forall p, p <> MODEM_RESET_TIMESTAMP_PATH ->
                              state_file_opened E w !! p = files w !! p).
  { intros p Hp. unfold state_file_opened.
    destruct (files w !! MODEM_RESET_TIMESTAMP_PATH); [reflexivity|].
    now rewrite lookup_insert_ne by congruence. }
  destruct (state_file_opens E w); cbn [andb].
  - destruct (elapsed_exceeds E w); cbn [andb].
    + destruct (lock_free E (acquires w)); cbn [andb].
      * destruct (executable E RESET_MODEM); cbn [negb];
          rewrite Hrun; cbn [fst snd files opens draws trace];
          rewrite !count_app; cbn.
        -- split; [intros p Hp; now rewrite lookup_insert_ne by congruence|].
           repeat split; lia.
        -- split; [exact Hopened|]. repeat split; lia.
      * rewrite Hrun. cbn [fst snd files opens draws trace].
        rewrite !count_app. cbn.
        split; [intros p Hp; now rewrite lookup_insert_ne by congruence|].
        repeat split; lia.
    + rewrite Hrun. cbn [fst snd files opens draws trace].
      rewrite !count_app. cbn. split; [exact Hopened|]. repeat split; lia.
  - rewrite Hrun. cbn [fst snd files opens draws trace].
    rewrite !count_app. cbn. repeat split; lia.
Qed.

(** X9: the cooldown.  After a reset that was due (and in which the
    script, if the lock was granted, could be started), a second call
    of [reset_modem] whose reading of the clock is within the minimum
    interval of the value that [float] reads back from the text just
    written launches nothing and leaves the state file as it is. *)
Theorem no_reset_storm (E : env) (w : world) (v : Q) :
  let t1 := time_at E (S (ticks w)) in
  let t2 := time_at E (S (S (ticks w))) in
  reset_due E w = true ->
  (lock_free E (acquires w) = true -> executable E RESET_MODEM = true) ->
  read_float E (PyStr.strip (py_str E t1)) = Some (Finite v) ->
  (t2 - v <= minimum_reset_interval E)%Q ->
  exists w1 w2,
    reset_modem E w = (Ok tt, w1) /\
    reset_modem E w1 = (Ok tt, w2) /\
    launches (trace w2) = launches (trace w1) /\
    files w2 = files w1.
Proof.
  cbn zeta. intros Hdue Hstart Hrt Hle.
  unfold reset_due in Hdue. apply andb_prop in Hdue as [Hopen Hex].
  pose proof (reset_modem_run E w) as Hrun. cbn zeta in Hrun.
  rewrite Hopen, Hex in Hrun.
  assert (Hrun' : exists e,
    reset_modem E w
    = (Ok tt,
       World (<[MODEM_RESET_TIMESTAMP_PATH
                := File (py_str E (time_at E (S (ticks w)))) (stamp_mode E w)]> (files w))
         (S (acquires w)) (opens w) (S (S (ticks w))) (draws w)
         (trace w ++
          [ResetModemCalled; Log "info" "last modem reset: %d";
           Log "info" "resetting modem..."; e;
           Wrote MODEM_RESET_TIMESTAMP_PATH (py_str E (time_at E (S (ticks w))))]))).
  { destruct (lock_free E (acquires w)).
    - rewrite (Hstart eq_refl) in Hrun. eexists. exact Hrun.
    - eexists. exact Hrun. }
  clear Hrun. destruct Hrun' as (e & Hrun).
  eexists. eexists. split; [exact Hrun|].
  match type of Hrun with _ = (_, ?x) => set (w1 := x) in * end.
  pose proof (reset_modem_run E w1) as Hrun1. cbn zeta in Hrun1.
  assert (Hopen1 : state_file_opens E w1 = true).
  { unfold state_file_opens, w1. cbn [files]. now rewrite lookup_insert_eq. }
  assert (Hnot : elapsed_exceeds E w1 = false).
  { unfold elapsed_exceeds, last_reset, w1. cbn [files ticks].
    rewrite lookup_insert_eq. cbn [content]. rewrite Hrt.
    cbn [float_sub float_gt]. now apply Qgtb_false. }
  rewrite Hopen1, Hnot in Hrun1. split; [exact Hrun1|].
  cbn [trace files]. unfold launches. rewrite count_app.
  change (count is_launch [ResetModemCalled; Log "info" "last modem reset: %d"])
    with 0%nat.
  split; [unfold w1; cbn [trace]; lia|].
  unfold state_file_opened. cbn [files]. now rewrite lookup_insert_eq.
Qed.

Lemma no_reset_storm_witness :
  let E := Example.env_of (fun _ => Example.no_session) (fun _ => true)
             (fun n => match n with O => 1000 # 1 | 1%nat => 1001 # 1 | _ => 1100 # 1 end) in
  let w := Example.world_of {[ MODEM_RESET_TIMESTAMP_PATH := File "600.0" 420 ]} in
  exists w1 w2,
    reset_modem E w = (Ok tt, w1) /\
    reset_modem E w1 = (Ok tt, w2) /\
    launches (trace w2) = launches (trace w1) /\
    files w2 = files w1.
Proof.
  intros E w. apply (no_reset_storm E w (1001 # 1)).
  - vm_compute. reflexivity.
  - reflexivity.
  - vm_compute. reflexivity.
  - vm_compute. discriminate.
Defined.

(** ** The state file of the reset governor *)

(** X24: [get_modem_reset_file] writes no log line and changes no file
    but the state file.  A state file that the process can open is
    returned as it is, with [created] false; one that it cannot open
    (missing, or not open to the process) is created empty, with
    [created] true, when the process may do that, and otherwise the
    [IOError] of the second [open] leaves the function, with nothing
    changed. *)
Theorem reset_file_opened (E : env) (w : world) :
  let P := MODEM_RESET_TIMESTAMP_PATH in
  let out := fst (get_modem_reset_file E w) in
  let w' := snd (get_modem_reset_file E w) in
  trace w' = trace w /\
  (forall p, p <> P -> files w' !! p = files w !! p) /\
  match files w !! P with
  | Some f => out = Ok (Handle P 0, false) /\ files w' = files w
  | None =>
      if may_create E P
      then out = Ok (Handle P 0, true) /\
           files w' !! P = Some (File "" (new_mode E))
      else out = Raise IOError /\ files w' = files w
  end.
Proof.
  cbn zeta. rewrite get_modem_reset_file_run. cbn zeta.
  destruct (files w !! MODEM_RESET_TIMESTAMP_PATH) as [f|] eqn:Hf;
    cbn [fst snd]; [auto|].
  destruct (may_create E MODEM_RESET_TIMESTAMP_PATH); cbn [fst snd]; [|auto].
  destruct w as [fs na no nt nd tr]. unfold set_files. cbn [files trace].
  split; [reflexivity|]. split.
  - intros p Hp. now rewrite lookup_insert_ne by congruence.
  - split; [reflexivity|apply lookup_insert_eq].
Qed.

(** ** More on [write_sms] *)

Lemma set_message_id_inv mobile value res res' w w' :
  set_message_id mobile value res w = (Ok res', w') ->
  w' = w /\
  exists d, res !! "message_id" = Some (VDict d) /\
            res' = <["message_id" := VDict (<[mobile := value]> d)]> res.
Proof.
  unfold set_message_id.
  destruct (res !! "message_id") as [[s|t|z|d]|]; unfold raise, ret;
    try discriminate.
  intros [= <- <-]. eauto.
Qed.

(** The locals that a successful spool write leaves behind. *)
Lemma spool_locals E txt mobile l w l' w' :
  spool E txt mobile l w = (Ok l', w') ->
  parts_count l' = snd (fst (encode_block txt (parts_count l) (ucs_field l))) /\
  ucs_field l' = snd (encode_block txt (parts_count l) (ucs_field l)) /\
  exists d id,
    result l !! "message_id" = Some (VDict d) /\
    result l' = <["message_id" := VDict (<[mobile := id]> d)]> (result l).
Proof.
  unfold spool. intros H.
  do 9 (apply bind_inv in H as (? & ? & _ & H)).
  apply bind_inv in H as (res & w1 & Hset & H).
  apply set_message_id_inv in Hset as (_ & d & Hd & ->).
  unfold ret in H. injection H as <- _. cbn [parts_count ucs_field result].
  eauto 10.
Qed.

(** Encoding the same text again changes nothing. *)
Lemma encode_block_again txt :
  let p := snd (fst (encode_block txt 1 false)) in
  let u := snd (encode_block txt 1 false) in
  snd (fst (encode_block txt p u)) = p /\ snd (encode_block txt p u) = u.
Proof.
  cbn zeta. unfold encode_block.
  destruct (encode_us_ascii txt); cbn [fst snd].
  - destruct (len txt >? 160); auto.
  - destruct (len txt >? 70); auto.
Qed.

Lemma step_rejected (E : env) (txt : text) (mobile : string)
  (l l' : locals) (w w' : world) :
  validate_mobile mobile = false \/ access_mobile E mobile = None ->
  write_sms_step E txt mobile l w = (Ok l', w') ->
  files w' = files w /\ draws w' = draws w /\
  parts_count l' = parts_count l /\ ucs_field l' = ucs_field l /\
  if validate_mobile mobile
  then exists d,
         result l !! "message_id" = Some (VDict d) /\
         result l' = <["message_id" := VDict (<[mobile := "Forbidden"]> d)]> (result l)
  else result l' = <[mobile := VStr "Not valid"]> (result l).
Proof.
  intros Hrej. unfold write_sms_step.
  destruct (validate_mobile mobile) eqn:Hv; cbn [negb].
  - destruct Hrej as [Hrej|Hrej]; [discriminate|]. rewrite Hrej. cbn [truthy_opt].
    intros H. apply bind_inv in H as (u & w1 & Hlog & H).
    unfold log, modify in Hlog. injection Hlog as _ <-.
    apply bind_inv in H as (res & w2 & Hset & H).
    apply set_message_id_inv in Hset as (-> & d & Hd & ->).
    unfold ret in H. injection H as <- <-.
    cbn [files draws emit parts_count ucs_field result]. eauto 10.
  - intros H. apply bind_inv in H as (u & w1 & Hlog & H).
    unfold log, modify in Hlog. injection Hlog as _ <-.
    unfold ret in H. injection H as <- <-.
    cbn [files draws emit parts_count ucs_field result]. auto.
Qed.

(** X10: a destination that fails validation or is not permitted costs
    nothing: no name is drawn, no file is created or changed, and the
    part count and alphabet of the request stay as they are; its marker
    goes under the destination's own key of the response when it is not
    valid, into the [message_id] map when it is forbidden. *)
Theorem rejected_destination (E : env) (txt : text) (mobile : string)
  (l l' : locals) (w w' : world) :
  validate_mobile mobile = false \/ access_mobile E mobile = None ->
  write_sms_step E txt mobile l w = (Ok l', w') ->
  files w' = files w /\ draws w' = draws w /\
  parts_count l' = parts_count l /\ ucs_field l' = ucs_field l /\
  if validate_mobile mobile
  then exists d,
         result l !! "message_id" = Some (VDict d) /\
         result l' = <["message_id" := VDict (<[mobile := "Forbidden"]> d)]> (result l)
  else result l' = <[mobile := VStr "Not valid"]> (result l).
Proof. apply step_rejected. Qed.

Lemma rejected_destination_witness :
  let E := Example.env_of (fun _ => Example.no_session) (fun _ => true)
             (fun _ => 0 # 1) in
  let l0 := Locals {[ "message_id" := VDict ∅ ]} 1 false in
  let r := write_sms_step E (letters 200) "+15551234567" l0 (Example.world_of ∅) in
  files (snd r) = ∅ /\ match fst r with Ok l' => parts_count l' = 1 | _ => False end.
Proof.
  intros E l0 r.
  assert (Hr : exists l' w', r = (Ok l', w')) by (vm_compute; eexists _, _; reflexivity).
  destruct Hr as (l' & w' & Hr).
  destruct (rejected_destination E (letters 200) "+15551234567" l0 l'
              (Example.world_of ∅) w' (or_introl eq_refl) Hr)
    as (Hf & _ & Hp & _).
  rewrite Hr. cbn [fst snd]. split; [exact Hf|exact Hp].
Defined.




Lemma step_locals E txt mobile l w l' w' :
  let p := snd (fst (encode_block txt 1 false)) in
  let u := snd (encode_block txt 1 false) in
  (parts_count l, ucs_field l) = (1, false) \/ (parts_count l, ucs_field l) = (p, u) ->
  write_sms_step E txt mobile l w = (Ok l', w') ->
  (parts_count l', ucs_field l')
  = if spooled E mobile then (p, u) else (parts_count l, ucs_field l).
Proof.
  cbn zeta. intros Hl. unfold write_sms_step, spooled.
  destruct (validate_mobile mobile) eqn:Hv; cbn [negb andb].
  - destruct (truthy_opt (access_mobile E mobile)) eqn:Ha.
    + intros H. apply spool_locals in H as (Hp & Hu & _).
      rewrite Hp, Hu. destruct Hl as [[= -> ->]|[= -> ->]]; [reflexivity|].
      destruct (encode_block_again txt) as [-> ->]. reflexivity.
    + intros H. apply bind_inv in H as (? & ? & _ & H).
      apply bind_inv in H as (? & ? & _ & H).
      unfold ret in H. injection H as <- _. reflexivity.
  - intros H. apply bind_inv in H as (? & ? & _ & H).
    unfold ret in H. injection H as <- _. reflexivity.
Qed.

Lemma loop_locals E txt ms :
  let p := snd (fst (encode_block txt 1 false)) in
  let u := snd (encode_block txt 1 false) in
  forall l w l' w',
    (parts_count l, ucs_field l) = (1, false) \/ (parts_count l, ucs_field l) = (p, u) ->
    write_sms_loop E txt ms l w = (Ok l', w') ->
    (parts_count l', ucs_field l')
    = if existsb (spooled E) ms then (p, u) else (parts_count l, ucs_field l).
Proof.
  cbn zeta. induction ms as [|mobile ms IH]; intros l w l' w' Hl;
    cbn [write_sms_loop existsb].
  - unfold ret. intros [= <- <-]. reflexivity.
  - intros H. apply bind_inv in H as (l1 & w1 & Hstep & H).
    pose proof (step_locals _ _ _ _ _ _ _ Hl Hstep) as H1. cbn zeta in H1.
    assert (Hl1 : (parts_count l1, ucs_field l1) = (1, false) \/
                  (parts_count l1, ucs_field l1)
                  = (snd (fst (encode_block txt 1 false)), snd (encode_block txt 1 false))).
    { rewrite H1. destruct (spooled E mobile); auto. }
    rewrite (IH _ _ _ _ Hl1 H). rewrite H1.
    destruct (spooled E mobile), (existsb (spooled E) ms); reflexivity.
Qed.

(** X12: when at least one destination of a request is spooled, the
    [parts_count] of the response is the part count of the text: one
    part up to 160 characters of 7-bit text (70 otherwise), the ceiling
    of [L / 153] (of [L / 67]) above -- wherever the rejected
    destinations stand in the list. *)
Theorem response_parts_count (E : env) (s : sms) (w w' : world)
  (res : gmap string pyval) :
  existsb (spooled E) (mobiles s) = true ->
  write_sms E s w = (Ok res, w') ->
  let L := len (sms_text s) in
  res !! "parts_count"
  = Some (VInt (if forallb is_7bit (sms_text s)
                then (if L <=? 160 then 1 else ceiling L 153)
                else (if L <=? 70 then 1 else ceiling L 67))).
Proof.
  intros Hsp H. cbn zeta. unfold write_sms in H.
  apply bind_inv in H as (l & w1 & Hloop & H).
  apply loop_locals in Hloop; [|left; reflexivity]. cbn zeta in Hloop.
  rewrite Hsp in Hloop. injection Hloop as Hp _.
  unfold ret in H. injection H as <- _.
  rewrite lookup_insert_eq, Hp, parts_formula. reflexivity.
Qed.

Lemma response_parts_count_witness :
  let E := Example.env_of (fun _ => Example.no_session) (fun _ => true)
             (fun _ => 0 # 1) in
  match fst (write_sms E (Sms ["abc"; "15551234567"] (letters 161)) (Example.world_of ∅)) with
  | Ok res => res !! "parts_count" = Some (VInt 2)
  | Raise _ => False
  end.
Proof.
  intros E.
  assert (Hr : exists res w',
             write_sms E (Sms ["abc"; "15551234567"] (letters 161)) (Example.world_of ∅)
             = (Ok res, w')) by (vm_compute; eexists _, _; reflexivity).
  destruct Hr as (res & w' & Hr).
  assert (Hsp : existsb (spooled E)
                  (mobiles (Sms ["abc"; "15551234567"] (letters 161))) = true)
    by (vm_compute; reflexivity).
  pose proof (response_parts_count E _ _ _ _ Hsp Hr) as Hp.
  rewrite Hr. cbn [fst]. rewrite Hp. vm_compute. reflexivity.
Defined.
(** ** A destination that cannot be written *)

Lemma mkstemp_first E dir pre suf w :
  let p := PyStr.path_join dir (pre ++ rand_name E (draws w) ++ suf) in
  files w !! p = None ->
  mkstemp E dir pre suf w
  = (Ok p, World (<[p := File "" 384]> (files w)) (acquires w) (opens w) (ticks w)
             (S (draws w)) (trace w ++ [Created p])).
Proof.
  cbn zeta. intros Hfree. unfold mkstemp.
  assert (Hmax : exists n, TMP_MAX = S n)
    by (exists (Nat.pred TMP_MAX); unfold TMP_MAX; lia).
  destruct Hmax as [n ->]. cbn [mkstemp_inner].
  destruct w as [fs na no nt nd tr]. wsimpl. cbn [files draws] in Hfree.
  rewrite Hfree. reflexivity.
Qed.

Lemma all_app p a b : Str.all p (a ++ b) = Str.all p a && Str.all p b.
Proof.
  induction a as [|c a IH]; [reflexivity|].
  change (Str.all p (String c (a ++ b)) = Str.all p (String c a) && Str.all p b).
  cbn [Str.all]. rewrite IH. apply andb_assoc.
Qed.

(** X25: validation lets through digits that are not ASCII (the
    superscripts of Latin-1 count as digits for [isdigit]), and the
    write of the destination line then fails: [write_sms] raises
    [UnicodeEncodeError] after it has created the temporary file, which
    stays in the queue directory under its [.LOCK] name, holding the
    lines written so far. *)
Theorem unwritable_digit_strands_lock (E : env) (txt : text) (mobile : string)
  (l : locals) (w : world) :
  let lockp := PyStr.path_join (OUTGOING E)
                 (PREFIX E ++ rand_name E (draws w) ++ ".LOCK") in
  validate_mobile mobile = true ->
  truthy_opt (access_mobile E mobile) = true ->
  Str.all PyStr.is_ascii_char mobile = false ->
  files w !! lockp = None ->
  exists w',
    write_sms_step E txt mobile l w = (Raise UnicodeEncodeError, w') /\
    files w'
    = <[lockp := File (("From: " ++ username E ++ LF) ++
                       (if snd (encode_block txt (parts_count l) (ucs_field l))
                        then "Alphabet: UCS" ++ LF else "")) 384]> (files w).
Proof.
  cbn zeta. intros Hv Ha Hna Hfree.
  unfold write_sms_step. rewrite Hv, Ha. cbn [negb]. unfold spool.
  rewrite (bind_ok _ _ _ _ _ (mkstemp_first E _ _ _ w Hfree)).
  set (lockp := PyStr.path_join (OUTGOING E)
                  (PREFIX E ++ rand_name E (draws w) ++ ".LOCK")) in *.
  destruct w as [fs na no nt nd tr].
  cbn [files acquires opens ticks draws trace] in *.
  erewrite (bind_ok _ _ _ _ _
              (open_w_existing E lockp (File "" 384) _ (lookup_insert_eq _ _ _))).
  unfold set_files. cbn [files acquires opens ticks draws trace mode].
  rewrite insert_insert_eq.
  change (Handle lockp 0) with (Handle lockp (String.length "")).
  erewrite (bind_ok _ _ _ _ _
              (f_write_append lockp "" 384 _ _ (lookup_insert_eq _ _ _))).
  unfold set_files, emit. cbn [files acquires opens ticks draws trace mode].
  rewrite insert_insert_eq.
  change ("" ++ "From: " ++ username E ++ LF) with ("From: " ++ username E ++ LF).
  assert (Hto : Str.all PyStr.is_ascii_char ("To: " ++ mobile ++ LF ++ LF) = false).
  { rewrite !all_app, Hna. now rewrite andb_false_r. }
  destruct (snd (encode_block txt (parts_count l) (ucs_field l))).
  - erewrite (bind_ok _ _ _ _ _
                (f_write_append lockp _ 384 _ _ (lookup_insert_eq _ _ _))).
    unfold set_files, emit. cbn [files acquires opens ticks draws trace mode].
    rewrite insert_insert_eq.
    unfold bind at 1, f_write_unicode. rewrite Hto. unfold raise.
    eexists. split; reflexivity.
  - unfold bind at 1, ret at 1. unfold bind at 1, f_write_unicode.
    rewrite Hto. unfold raise. eexists. split; [reflexivity|].
    cbn [files]. now rewrite app_empty_r.
Qed.

Lemma unwritable_digit_strands_lock_witness :
  let E := Example.env_of (fun _ => Example.no_session) (fun _ => true)
             (fun _ => 0 # 1) in
  let l0 := Locals {[ "message_id" := VDict ∅ ]} 1 false in
  fst (write_sms_step E [104%N; 105%N] (String (ascii_of_N 178) "") l0
         (Example.world_of ∅))
  = Raise UnicodeEncodeError.
Proof.
  intros E l0.
  destruct (unwritable_digit_strands_lock E [104%N; 105%N]
              (String (ascii_of_N 178) "") l0 (Example.world_of ∅))
    as (w' & Hrun & _); [reflexivity ..|].
  rewrite Hrun. reflexivity.
Defined.
(** ** The two views that take a send request *)

Lemma send_view_inv E s w r code w' :
  send_view E s w = (Ok (r, code), w') ->
  code = 201 /\ write_sms E s w = (Ok r, w').
Proof.
  unfold send_view. intros H. apply bind_inv in H as (res & w1 & Hw & H).
  unfold ret in H. injection H as <- <- <-. auto.
Qed.

Lemma write_sms_sent_text E s w res w' :
  write_sms E s w = (Ok res, w') ->
  res !! "sent_text" = Some (VText (sms_text s)).
Proof.
  unfold write_sms. intros H. apply bind_inv in H as (l & w1 & _ & H).
  unfold ret in H. injection H as <- _.
  rewrite lookup_insert_ne by discriminate. apply lookup_insert_eq.
Qed.

Lemma all_unicode ms : forallb is_unicode (map JStr ms) = true.
Proof. induction ms; [reflexivity|exact IHms]. Qed.

Lemma unicode_of_JStr ms : map unicode_of (map JStr ms) = ms.
Proof. induction ms as [|m ms IH]; [reflexivity|]. cbn [map unicode_of]. now rewrite IH. Qed.

Lemma not_all_unicode j items :
  In j items -> is_unicode j = false -> forallb is_unicode items = false.
Proof.
  intros Hin Hj. destruct (forallb is_unicode items) eqn:Hall; [|reflexivity].
  rewrite forallb_forall in Hall. rewrite (Hall _ Hin) in Hj. discriminate.
Qed.

Lemma members_truthy key members v :
  member key members = Some v -> json_truthy (JObj members) = true.
Proof. destruct members; [discriminate|reflexivity]. Qed.

(** X13: [create_sms] answers with 400 or with 201 only, and a request
    it answers with 400 has left nothing behind: no file, no log line,
    no name drawn -- the body of the answer is the one error message. *)
Theorem create_sms_rejection_is_silent (E : env) (body : option json)
  (w w' : world) (r : gmap string pyval) (code : Z) :
  create_sms E body w = (Ok (r, code), w') ->
  (code = 400 /\ w' = w /\ r = error_body "Request error") \/
  (code = 201 /\ exists s, write_sms E s w = (Ok r, w') /\
                           r !! "sent_text" = Some (VText (sms_text s))).
Proof.
  assert (Hbad : ret (bad_request "Request error") w = (Ok (r, code), w') ->
                 (code = 400 /\ w' = w /\ r = error_body "Request error") \/
                 (code = 201 /\ exists s, write_sms E s w = (Ok r, w') /\
                                  r !! "sent_text" = Some (VText (sms_text s)))).
  { unfold ret, bad_request. intros [= <- <- <-]. auto. }
  unfold create_sms.
  destruct body as [j|]; [|exact Hbad].
  destruct (negb (json_truthy j)); [exact Hbad|].
  destruct j as [|b|z|s|items|members]; try exact Hbad.
  destruct (member "mobiles" members) as [ms|]; [|exact Hbad].
  destruct (member "text" members) as [[|b|z|t|items|ms']|]; try exact Hbad.
  destruct (iterate ms) as [items|]; [|discriminate].
  destruct (forallb is_unicode items); [|exact Hbad].
  intros H. apply send_view_inv in H as (-> & H). right. split; [reflexivity|].
  eexists. split; [exact H|]. exact (write_sms_sent_text _ _ _ _ _ H).
Qed.

Lemma create_sms_rejection_is_silent_witness :
  let E := Example.env_of (fun _ => Example.no_session) (fun _ => true)
             (fun _ => 0 # 1) in
  let body := Some (JObj [("mobiles", JList [JStr "15551234567"; JNum 5]);
                          ("text", JStr "hi")]) in
  snd (create_sms E body (Example.world_of ∅)) = Example.world_of ∅.
Proof.
  intros E body.
  assert (Hr : exists r w', create_sms E body (Example.world_of ∅) = (Ok (r, 400), w'))
    by (vm_compute; eexists _, _; reflexivity).
  destruct Hr as (r & w' & Hr).
  destruct (create_sms_rejection_is_silent E body _ _ _ _ Hr)
    as [(_ & Hw & _)|(Hc & _)]; [|discriminate].
  rewrite Hr. exact Hw.
Defined.

(** X14: a body whose [mobiles] is a list of strings and whose [text]
    is a string passes the checks: the view is [write_sms] on exactly
    these destinations, in their order, answered with 201. *)
Theorem create_sms_accepts (E : env) (members : list (string * json))
  (ms : list string) (t : string) :
  member "mobiles" members = Some (JList (map JStr ms)) ->
  member "text" members = Some (JStr t) ->
  create_sms E (Some (JObj members)) = send_view E (Sms ms (text_of t)).
Proof.
  intros Hm Ht. unfold create_sms.
  rewrite (members_truthy _ _ _ Hm). cbn [negb]. rewrite Hm, Ht.
  cbn [iterate]. rewrite all_unicode, unicode_of_JStr. reflexivity.
Qed.

Lemma create_sms_accepts_witness :
  let E := Example.env_of (fun _ => Example.no_session) (fun _ => true)
             (fun _ => 0 # 1) in
  create_sms E (Some (JObj [("text", JStr "hi");
                            ("mobiles", JList (map JStr ["15551234567"; "abc"]))]))
  = send_view E (Sms ["15551234567"; "abc"] (text_of "hi")).
Proof.
  intros E. apply create_sms_accepts; reflexivity.
Defined.

(** X15: [mobiles] given as one string instead of a list passes the
    checks as well, and the loop over it runs over its characters: each
    character of the string is a destination of its own. *)
Theorem create_sms_string_mobiles (E : env) (members : list (string * json))
  (m t : string) :
  member "mobiles" members = Some (JStr m) ->
  member "text" members = Some (JStr t) ->
  create_sms E (Some (JObj members)) = send_view E (Sms (chars m) (text_of t)).
Proof.
  intros Hm Ht. unfold create_sms.
  rewrite (members_truthy _ _ _ Hm). cbn [negb]. rewrite Hm, Ht.
  cbn [iterate]. rewrite all_unicode, unicode_of_JStr. reflexivity.
Qed.

Lemma create_sms_string_mobiles_witness :
  let E := Example.env_of (fun _ => Example.no_session) (fun _ => true)
             (fun _ => 0 # 1) in
  create_sms E (Some (JObj [("mobiles", JStr "155"); ("text", JStr "hi")]))
  = send_view E (Sms ["1"; "5"; "5"] (text_of "hi")).
Proof.
  intros E. apply (create_sms_string_mobiles E _ "155" "hi"); reflexivity.
Defined.

(** X16: one item of [mobiles] that is not a string rejects the whole
    request, the valid destinations with it: the answer is 400 and
    nothing is spooled for anyone. *)
Theorem create_sms_one_bad_item (E : env) (members : list (string * json))
  (items : list json) (j : json) (w : world) :
  member "mobiles" members = Some (JList items) ->
  In j items -> is_unicode j = false ->
  create_sms E (Some (JObj members)) w = (Ok (bad_request "Request error"), w).
Proof.
  intros Hm Hin Hj. unfold create_sms.
  rewrite (members_truthy _ _ _ Hm). cbn [negb]. rewrite Hm.
  destruct (member "text" members) as [[|b|z|t|its|ms']|]; try reflexivity.
  cbn [iterate]. rewrite (not_all_unicode _ _ Hin Hj). reflexivity.
Qed.

Lemma create_sms_one_bad_item_witness :
  let E := Example.env_of (fun _ => Example.no_session) (fun _ => true)
             (fun _ => 0 # 1) in
  create_sms E (Some (JObj [("mobiles", JList [JStr "15551234567"; JNum 15551234567]);
                            ("text", JStr "hi")])) (Example.world_of ∅)
  = (Ok (bad_request "Request error"), Example.world_of ∅).
Proof.
  intros E.
  apply (create_sms_one_bad_item E _ [JStr "15551234567"; JNum 15551234567]
           (JNum 15551234567)).
  - reflexivity.
  - right. left. reflexivity.
  - reflexivity.
Defined.

(** X17: [mobiles] that cannot be iterated over (a number, a boolean,
    [null]) beside a well-formed [text] is not answered with 400: the
    loop of the checks raises [TypeError], which Flask turns into the
    answer of the 500 handler. *)
Theorem create_sms_mobiles_not_iterable (E : env) (members : list (string * json))
  (ms : json) (t : string) (w : world) :
  member "mobiles" members = Some ms ->
  iterate ms = None ->
  member "text" members = Some (JStr t) ->
  create_sms E (Some (JObj members)) w = (Raise TypeError, w) /\
  flask_dispatch (r <- create_sms E (Some (JObj members)) ;; ret (Some r)) w
  = (internal_error, w).
Proof.
  intros Hm Hi Ht.
  assert (H : create_sms E (Some (JObj members)) w = (Raise TypeError, w)).
  { unfold create_sms. rewrite (members_truthy _ _ _ Hm). cbn [negb].
    rewrite Hm, Ht, Hi. reflexivity. }
  split; [exact H|]. unfold flask_dispatch, bind. rewrite H. reflexivity.
Qed.

Lemma create_sms_mobiles_not_iterable_witness :
  let E := Example.env_of (fun _ => Example.no_session) (fun _ => true)
             (fun _ => 0 # 1) in
  fst (create_sms E (Some (JObj [("mobiles", JNum 15551234567); ("text", JStr "hi")]))
         (Example.world_of ∅))
  = Raise TypeError.
Proof.
  intros E.
  destruct (create_sms_mobiles_not_iterable E
              [("mobiles", JNum 15551234567); ("text", JStr "hi")]
              (JNum 15551234567) "hi" (Example.world_of ∅)
              eq_refl eq_refl eq_refl) as [H _].
  rewrite H. reflexivity.
Defined.

Lemma has_key_getlist key args :
  has_key key args = match getlist key args with [] => false | _ => true end.
Proof.
  unfold has_key. induction args as [|[k v] args IH]; [reflexivity|].
  cbn [existsb getlist fst]. destruct (String.eqb k key); [reflexivity|exact IH].
Qed.

(** X18: [simple_send_sms] answers 400 exactly when [to] or [text] is
    missing from the query string, and then it has logged nothing and
    written nothing; the first check, on an empty query string, adds no
    case.  Otherwise the answer is 201 and carries what [write_sms]
    gives for every [to] of the query string and its first [text]. *)
Theorem simple_send_missing_params (E : env) (args : list (string * string))
  (w w' : world) (r : gmap string pyval) (code : Z) :
  simple_send_sms E args w = (Ok (r, code), w') ->
  if has_key "to" args && has_key "text" args
  then code = 201 /\
       write_sms E (Sms (getlist "to" args) (text_of (first_value "text" args)))
         (emit (Log "info" "%s") (emit (Log "debug" "to: {}") w)) = (Ok r, w')
  else code = 400 /\ w' = w /\ r = error_body "missing required params".
Proof.
  unfold simple_send_sms.
  destruct args as [|a args];
    [unfold ret, bad_request; intros [= <- <- <-]; cbn; auto|].
  destruct (has_key "to" (a :: args)); cbn [negb andb];
    [|unfold ret, bad_request; intros [= <- <- <-]; auto].
  destruct (has_key "text" (a :: args)); cbn [negb];
    [|unfold ret, bad_request; intros [= <- <- <-]; auto].
  intros H.
  apply bind_inv in H as (u1 & w1 & H1 & H).
  apply bind_inv in H as (u2 & w2 & H2 & H).
  unfold log, modify in H1, H2. injection H1 as _ <-. injection H2 as _ <-.
  apply send_view_inv in H as (-> & H). split; [reflexivity|exact H].
Qed.

Lemma simple_send_missing_params_witness :
  let E := Example.env_of (fun _ => Example.no_session) (fun _ => true)
             (fun _ => 0 # 1) in
  snd (simple_send_sms E [("to", "15551234567"); ("txt", "hi")] (Example.world_of ∅))
  = Example.world_of ∅.
Proof.
  intros E.
  assert (Hr : exists r w',
             simple_send_sms E [("to", "15551234567"); ("txt", "hi")] (Example.world_of ∅)
             = (Ok (r, 400), w'))
    by (vm_compute; eexists _, _; reflexivity).
  destruct Hr as (r & w' & Hr).
  pose proof (simple_send_missing_params E _ _ _ _ _ Hr) as H.
  cbn in H. destruct H as (_ & Hw & _). rewrite Hr. exact Hw.
Defined.

Lemma getlist_app key args args' :
  getlist key (args ++ args') = (getlist key args ++ getlist key args')%list.
Proof.
  induction args as [|[k v] args IH]; [reflexivity|].
  cbn [app getlist]. destruct (String.eqb k key); [cbn [app]; now rewrite IH|exact IH].
Qed.

(** X19: of several [text] parameters only the first counts: one more
    [text] at the end of a query string that has one changes nothing in
    what the view does, while every [to] is a destination. *)
Theorem simple_send_first_text (E : env) (args : list (string * string))
  (t' : string) :
  has_key "text" args = true ->
  simple_send_sms E (args ++ [("text", t')]) = simple_send_sms E args.
Proof.
  intros Ht. unfold simple_send_sms.
  assert (Hto : has_key "to" (args ++ [("text", t')]) = has_key "to" args).
  { rewrite !has_key_getlist, getlist_app. cbn [getlist String.eqb Ascii.eqb].
    cbn. now rewrite app_nil_r. }
  assert (Htx : has_key "text" (args ++ [("text", t')]) = true).
  { rewrite has_key_getlist, getlist_app. rewrite has_key_getlist in Ht.
    destruct (getlist "text" args); [discriminate|reflexivity]. }
  assert (Hg : getlist "to" (args ++ [("text", t')]) = getlist "to" args).
  { rewrite getlist_app. cbn. now rewrite app_nil_r. }
  assert (Hf : first_value "text" (args ++ [("text", t')]) = first_value "text" args).
  { unfold first_value. rewrite getlist_app. rewrite has_key_getlist in Ht.
    destruct (getlist "text" args); [discriminate|reflexivity]. }
  rewrite Hto, Htx, Hg, Hf, Ht.
  destruct args as [|a args]; [discriminate|reflexivity].
Qed.

Lemma simple_send_first_text_witness :
  let E := Example.env_of (fun _ => Example.no_session) (fun _ => true)
             (fun _ => 0 # 1) in
  simple_send_sms E ([("to", "1"); ("text", "a"); ("to", "2")] ++ [("text", "b")])
  = simple_send_sms E [("to", "1"); ("text", "a"); ("to", "2")].
Proof.
  intros E. apply simple_send_first_text. reflexivity.
Defined.
(** ** Looking up a sent message *)

Lemma marker_first f line :
  In f MSG_FIELDS -> Str.startswith (f ++ ": ") line = true ->
  exists c rest, line = String c rest /\
    ((f = "From" /\ c = "F"%char) \/ (f = "To" /\ c = "T"%char) \/
     (f = "Sent" /\ c = "S"%char) \/ (f = "message_id" /\ c = "m"%char)).
Proof.
  intros Hf H. destruct line as [|c rest].
  - destruct Hf as [<-|[<-|[<-|[<-|[]]]]]; discriminate H.
  - exists c, rest. split; [reflexivity|].
    destruct Hf as [<-|[<-|[<-|[<-|[]]]]];
      vm_compute (_ ++ ": ") in H; cbn [Str.startswith] in H;
      apply andb_prop in H as [H _]; apply Ascii.eqb_eq in H; subst c; auto 6.
Qed.

Lemma marker_exclusive f g line :
  In f MSG_FIELDS -> In g MSG_FIELDS ->
  Str.startswith (f ++ ": ") line = true ->
  Str.startswith (g ++ ": ") line = true -> f = g.
Proof.
  intros Hf Hg H1 H2.
  apply (marker_first _ _ Hf) in H1 as (c & rest & -> & H1).
  apply (marker_first _ _ Hg) in H2 as (c' & rest' & [= <- <-] & H2).
  destruct H1 as [[-> ->]|[[-> ->]|[[-> ->]|[-> ->]]]];
    destruct H2 as [[-> H]|[[-> H]|[[-> H]|[-> H]]]];
    try reflexivity; discriminate H.
Qed.

Lemma marker_not_blank f line :
  In f MSG_FIELDS -> Str.startswith (f ++ ": ") line = true ->
  Str.startswith LF line = false.
Proof.
  intros Hf H. apply (marker_first _ _ Hf) in H as (c & rest & -> & H).
  destruct H as [[_ ->]|[[_ ->]|[[_ ->]|[_ ->]]]]; reflexivity.
Qed.

Lemma scan_hit order f line d :
  In f MSG_FIELDS -> incl order MSG_FIELDS ->
  Str.startswith (f ++ ": ") line = true ->
  scan_fields order line d
  = if existsb (String.eqb f) order
    then <[f := Some (field_value (f ++ ": ") line)]> d
    else d.
Proof.
  intros Hf Hincl Hsw. revert d.
  induction order as [|g rest IH]; intros d; [reflexivity|].
  cbn [scan_fields existsb].
  assert (Hg : In g MSG_FIELDS) by (apply Hincl; left; reflexivity).
  assert (Hrest : incl rest MSG_FIELDS) by (intros x Hx; apply Hincl; right; exact Hx).
  rewrite (marker_not_blank _ _ Hf Hsw).
  destruct (String.eqb f g) eqn:Hfg.
  - apply String.eqb_eq in Hfg. subst g. rewrite Hsw. cbn [orb].
    rewrite (IH Hrest). destruct (existsb (String.eqb f) rest); [|reflexivity].
    apply insert_insert_eq.
  - destruct (Str.startswith (g ++ ": ") line) eqn:Hgs.
    + rewrite (marker_exclusive _ _ _ Hf Hg Hsw Hgs), String.eqb_refl in Hfg.
      discriminate.
    + cbn [orb]. apply (IH Hrest).
Qed.

Lemma scan_miss order line d :
  (forall f, In f order -> Str.startswith (f ++ ": ") line = false) ->
  scan_fields order line d = d.
Proof.
  revert d. induction order as [|g rest IH]; intros d Hno; [reflexivity|].
  cbn [scan_fields]. rewrite (Hno g (or_introl eq_refl)).
  destruct (Str.startswith LF line); [reflexivity|].
  apply IH. intros f Hin. apply Hno. right. exact Hin.
Qed.

Lemma existsb_perm f (order order' : list string) :
  Permutation order order' ->
  existsb (String.eqb f) order = existsb (String.eqb f) order'.
Proof.
  induction 1 as [|x l l' _ IH|x y l|l l' l'' _ IH1 _ IH2]; cbn [existsb].
  - reflexivity.
  - now rewrite IH.
  - now rewrite !orb_assoc, (orb_comm (String.eqb f y)).
  - now rewrite IH1.
Qed.

Lemma scan_perm order line d :
  Permutation order MSG_FIELDS ->
  scan_fields order line d = scan_fields MSG_FIELDS line d.
Proof.
  intros Hp.
  assert (Hincl : incl order MSG_FIELDS)
    by (intros x Hx; exact (Permutation_in _ Hp Hx)).
  destruct (existsb (fun f => Str.startswith (f ++ ": ") line) MSG_FIELDS) eqn:Hex.
  - apply existsb_exists in Hex as (f & Hf & Hsw).
    rewrite (scan_hit order f line d Hf Hincl Hsw).
    rewrite (scan_hit MSG_FIELDS f line d Hf (incl_refl _) Hsw).
    now rewrite (existsb_perm f _ _ Hp).
  - rewrite !scan_miss; [reflexivity| |].
    + intros f Hf. destruct (Str.startswith (f ++ ": ") line) eqn:Hsw; [|reflexivity].
      rewrite <- Hex. symmetry. apply existsb_exists. eauto.
    + intros f Hf. apply Hincl in Hf.
      destruct (Str.startswith (f ++ ": ") line) eqn:Hsw; [|reflexivity].
      rewrite <- Hex. symmetry. apply existsb_exists. eauto.
Qed.

Lemma read_perm order lines d :
  Permutation order MSG_FIELDS ->
  read_fields order lines d = read_fields MSG_FIELDS lines d.
Proof.
  intros Hp. unfold read_fields. revert d.
  induction lines as [|line lines IH]; intros d; [reflexivity|].
  cbn [fold_left]. rewrite (scan_perm _ _ _ Hp). apply IH.
Qed.

(** X20: [get_sms] only reads: whatever it answers, no file, counter or
    log line has changed; and a message that is not in the directory is
    answered by the 404 handler. *)
Theorem get_sms_reads_only (SENT : option string) (order : list string)
  (message_id : string) (w : world) :
  snd (get_sms SENT order message_id w) = w /\
  forall sent, SENT = Some sent ->
    files w !! (sent ++ "/" ++ message_id) = None ->
    fst (get_sms SENT order message_id w) = Ok (inr not_found).
Proof.
  split.
  - destruct SENT as [sent|]; [|reflexivity].
    unfold get_sms, try_except_environment, bind, open_r, f_read, ret.
    destruct (files w !! ((sent ++ "/") ++ message_id)) eqn:Hf; cbn [h_path].
    + rewrite Hf. reflexivity.
    + reflexivity.
  - intros sent -> Hnone.
    unfold get_sms, try_except_environment, bind, open_r.
    replace ((sent ++ "/") ++ message_id) with (sent ++ "/" ++ message_id)
      by (symmetry; apply str_app_assoc).
    rewrite Hnone. reflexivity.
Qed.

Lemma get_sms_reads_only_witness :
  get_sms (Some "/var/spool/sms/sent") MSG_FIELDS "GSM1.x" (Example.world_of ∅)
  = (Ok (inr not_found), Example.world_of ∅).
Proof.
  destruct (get_sms_reads_only (Some "/var/spool/sms/sent") MSG_FIELDS "GSM1.x"
              (Example.world_of ∅)) as [Hw Hnf].
  specialize (Hnf _ eq_refl eq_refl).
  destruct (get_sms _ _ _ _) as [o w']. cbn [fst snd] in *. congruence.
Defined.

(** X21: the order in which Python walks through the keys of
    [msg_fields] has no influence on the answer: the four markers
    exclude one another, and a line that stops the inner loop matches
    none of them. *)
Theorem get_sms_order_irrelevant (SENT : option string) (order : list string)
  (message_id : string) (w : world) :
  Permutation order MSG_FIELDS ->
  get_sms SENT order message_id w = get_sms SENT MSG_FIELDS message_id w.
Proof.
  intros Hp. destruct SENT as [sent|]; [|reflexivity].
  unfold get_sms, try_except_environment, bind, open_r, f_read, ret.
  destruct (files w !! ((sent ++ "/") ++ message_id)) eqn:Hf; cbn [h_path];
    [|reflexivity].
  rewrite Hf. cbn [fst]. now rewrite (read_perm _ _ _ Hp).
Qed.

Lemma get_sms_order_irrelevant_witness :
  let w := Example.world_of
             {[ "/sent/GSM1.x" := File ("From: joe" ++ LF ++ "To: 155" ++ LF) 420 ]} in
  get_sms (Some "/sent") ["message_id"; "Sent"; "To"; "From"] "GSM1.x" w
  = get_sms (Some "/sent") MSG_FIELDS "GSM1.x" w.
Proof.
  intros w. apply get_sms_order_irrelevant.
  change (Permutation (rev MSG_FIELDS) MSG_FIELDS).
  symmetry. apply Permutation_rev.
Defined.

Lemma scan_blank order d : scan_fields order LF d = d.
Proof.
  apply scan_miss. intros f _.
  pose proof (str_length_app f ": ") as Hlen.
  destruct (f ++ ": ") as [|a [|b p]]; cbn [String.length] in Hlen; try lia.
  cbn [Str.startswith LF]. now rewrite andb_false_r.
Qed.

Lemma readlines_app a s :
  readlines (a ++ LF ++ s) = (readlines (a ++ LF) ++ readlines s)%list.
Proof.
  induction a as [|c a IH].
  - reflexivity.
  - change (readlines (String c (a ++ LF ++ s))
            = (readlines (String c (a ++ LF)) ++ readlines s)%list).
    cbn [readlines]. destruct (Ascii.eqb c (ascii_of_N 10)).
    + rewrite IH. reflexivity.
    + rewrite IH. destruct (readlines (a ++ LF)) as [|l ls] eqn:Hl; [|reflexivity].
      exfalso. clear -Hl. induction a as [|c' a IH'].
      * discriminate Hl.
      * change (readlines (String c' (a ++ LF)) = []) in Hl. cbn [readlines] in Hl.
        destruct (Ascii.eqb c' (ascii_of_N 10)); [discriminate|].
        destruct (readlines (a ++ LF)); [auto|discriminate].
Qed.

Lemma read_fields_app order l1 l2 d :
  read_fields order (l1 ++ l2) d = read_fields order l2 (read_fields order l1 d).
Proof. unfold read_fields. apply fold_left_app. Qed.

(** The dict with which [get_sms] starts. *)
Lemma get_sms_found sent order message_id w f :
  files w !! (sent ++ "/" ++ message_id) = Some f ->
  get_sms (Some sent) order message_id w
  = (Ok (inl (read_fields order (readlines (content f))
                (<["From" := None]> (<["To" := None]> (<["Sent" := None]>
                   (<["message_id" := Some message_id]> ∅)))))), w).
Proof.
  intros Hf. unfold get_sms, try_except_environment, bind, open_r, f_read, ret.
  replace ((sent ++ "/") ++ message_id) with (sent ++ "/" ++ message_id)
    by (symmetry; apply str_app_assoc).
  rewrite Hf. cbn [h_path h_pos]. rewrite Hf. reflexivity.
Qed.

(** X22: the empty line between the header and the body of a message
    file does not end the reading: [break] leaves the loop over the
    fields only, so that the file with the empty line and the file
    without it get the same answer -- the lines of the body are
    searched for the markers like those of the header. *)
Theorem get_sms_reads_past_blank_line (sent message_id header body : string)
  (order : list string) (w1 w2 : world) (f1 f2 : file) :
  files w1 !! (sent ++ "/" ++ message_id) = Some f1 ->
  files w2 !! (sent ++ "/" ++ message_id) = Some f2 ->
  content f1 = header ++ LF ++ LF ++ body ->
  content f2 = header ++ LF ++ body ->
  fst (get_sms (Some sent) order message_id w1)
  = fst (get_sms (Some sent) order message_id w2).
Proof.
  intros H1 H2 Hc1 Hc2.
  rewrite (get_sms_found _ _ _ _ _ H1), (get_sms_found _ _ _ _ _ H2).
  cbn [fst]. do 2 f_equal. rewrite Hc1, Hc2.
  rewrite (readlines_app header (LF ++ body)), (readlines_app header body).
  change (LF ++ body) with ("" ++ LF ++ body). rewrite (readlines_app "" body).
  rewrite !read_fields_app. f_equal.
  change (readlines ("" ++ LF)) with [LF]. unfold read_fields at 1. cbn [fold_left].
  apply scan_blank.
Qed.

Lemma get_sms_reads_past_blank_line_witness :
  let f1 := File ("To: 155" ++ LF ++ LF ++ "To: 999") 420 in
  let f2 := File ("To: 155" ++ LF ++ "To: 999") 420 in
  fst (get_sms (Some "/sent") MSG_FIELDS "GSM1.x"
         (Example.world_of {[ "/sent/GSM1.x" := f1 ]}))
  = fst (get_sms (Some "/sent") MSG_FIELDS "GSM1.x"
           (Example.world_of {[ "/sent/GSM1.x" := f2 ]})).
Proof.
  intros f1 f2.
  apply (get_sms_reads_past_blank_line "/sent" "GSM1.x" "To: 155" "To: 999"
           MSG_FIELDS _ _ f1 f2); reflexivity.
Defined.

(** X23: the last line that starts with a marker decides the field --
    wherever it stands in the file, and [message_id] like the other
    three: the value is what follows the marker up to its next
    occurrence, without the white space at its end. *)
Theorem get_sms_last_line_wins (sent message_id field line : string)
  (lines : list string) (w : world) (f : file) :
  In field MSG_FIELDS ->
  files w !! (sent ++ "/" ++ message_id) = Some f ->
  readlines (content f) = (lines ++ [line])%list ->
  Str.startswith (field ++ ": ") line = true ->
  exists d,
    get_sms (Some sent) MSG_FIELDS message_id w = (Ok (inl d), w) /\
    d !! field = Some (Some (field_value (field ++ ": ") line)).
Proof.
  intros Hin Hf Hl Hsw. rewrite (get_sms_found _ _ _ _ _ Hf), Hl.
  eexists. split; [reflexivity|].
  rewrite read_fields_app. unfold read_fields at 1. cbn [fold_left].
  rewrite (scan_hit MSG_FIELDS field line _ Hin (incl_refl _) Hsw).
  assert (Hex : existsb (String.eqb field) MSG_FIELDS = true).
  { apply existsb_exists. exists field. split; [exact Hin|apply String.eqb_refl]. }
  rewrite Hex. apply lookup_insert_eq.
Qed.

Lemma get_sms_last_line_wins_witness :
  let f := File ("message_id: old" ++ LF ++ LF ++ "message_id: new   ") 420 in
  exists d,
    get_sms (Some "/sent") MSG_FIELDS "GSM1.x" (Example.world_of {[ "/sent/GSM1.x" := f ]})
    = (Ok (inl d), Example.world_of {[ "/sent/GSM1.x" := f ]}) /\
    d !! "message_id" = Some (Some "new").
Proof.
  intros f.
  apply (get_sms_last_line_wins "/sent" "GSM1.x" "message_id" "message_id: new   "
           ["message_id: old" ++ LF; LF] _ f).
  - right. right. right. left. reflexivity.
  - reflexivity.
  - reflexivity.
  - reflexivity.
Defined.
